(** * question_finder: a shallow embedding of the Open edX spider

    The development follows [spiders/question_finder.py].  Byte strings and
    text are Rocq strings (one 8-bit character per byte, or per code point
    below 256).  The third-party libraries the spider calls (Python's [re],
    URLObject, Scrapy's requests and link extractor) are modelled by the
    small executable definitions of the first modules; the spider itself is
    in [Module Spider]. *)

From Stdlib Require Import List String Ascii Bool Arith Lia DecimalString.
Import ListNotations.
Open Scope string_scope.
Open Scope list_scope.

(** ** Python string operations *)

Module Str.

(** [s.startswith(p)] *)
Fixpoint startswith (p s : string) : bool :=
  match p, s with
  | EmptyString, _ => true
  | String a p', String b s' => Ascii.eqb a b && startswith p' s'
  | String _ _, EmptyString => false
  end.

(** [p in s] *)
Fixpoint contains (p s : string) : bool :=
  startswith p s ||
  match s with
  | EmptyString => false
  | String _ s' => contains p s'
  end.

(** membership of a character in a character set *)
Definition mem (c : ascii) (cs : list ascii) : bool :=
  existsb (Ascii.eqb c) cs.

(** [str.isspace] on the code points below 256: TAB..CR, FS..US, SPACE,
    NEL and NBSP. *)
Definition is_space (c : ascii) : bool :=
  let n := nat_of_ascii c in
  (Nat.leb 9 n && Nat.leb n 13) || (Nat.leb 28 n && Nat.leb n 32)
  || Nat.eqb n 133 || Nat.eqb n 160.

Fixpoint lstrip (s : string) : string :=
  match s with
  | EmptyString => EmptyString
  | String c s' => if is_space c then lstrip s' else s
  end.

Fixpoint rstrip (s : string) : string :=
  match s with
  | EmptyString => EmptyString
  | String c s' =>
      match rstrip s' with
      | EmptyString => if is_space c then EmptyString else String c EmptyString
      | t => String c t
      end
  end.

(** [s.strip()] *)
Definition strip (s : string) : string := rstrip (lstrip s).

(** no character of [s] is in the set [cs] *)
Fixpoint free_of (cs : list ascii) (s : string) : bool :=
  match s with
  | EmptyString => true
  | String c s' => negb (mem c cs) && free_of cs s'
  end.

(** the part of [s] before the first character satisfying [stop], and the
    rest, which starts at that character *)
Fixpoint break (stop : ascii -> bool) (s : string) : string * string :=
  match s with
  | EmptyString => (EmptyString, EmptyString)
  | String c s' =>
      if stop c then (EmptyString, s)
      else let (a, b) := break stop s' in (String c a, b)
  end.

(** truth value of a Python string *)
Definition truthy (s : string) : bool :=
  match s with EmptyString => false | _ => true end.

End Str.

(** ** Python exceptions and results *)

Inductive exn := UnicodeDecodeError | AttributeError.

Inductive result (A : Type) :=
| Ok (a : A)
| Raise (e : exn).
Arguments Ok {A} a.
Arguments Raise {A} e.

(** ** The fragment of Python's [re] the spider uses

    A backtracking matcher: [exec r cap s] lists, in the order in which
    Python's engine tries them, the ways [r] matches a prefix of [s], each as
    the contents of group 1 and the input left over. *)

Module Re.

Inductive regex :=
| Eps
| Chr (c : ascii)
| NotIn (cs : list ascii)      (* [^...] *)
| Cat (r1 r2 : regex)
| Plus (r : regex)             (* greedy r+ *)
| Group (r : regex).           (* ( r ), group 1 *)

Fixpoint Lit (s : string) : regex :=
  match s with
  | EmptyString => Eps
  | String c s' => Cat (Chr c) (Lit s')
  end.

Definition state := (option string * string)%type.

(** the text between the start [s] of a match and its end [s'] *)
Definition consumed (s s' : string) : string :=
  substring 0 (String.length s - String.length s') s.

(** [r+], greedy: one more iteration is tried before stopping. *)
Fixpoint plus_iter (step : option string -> string -> list state)
    (n : nat) (cap : option string) (s : string) : list state :=
  match n with
  | O => []
  | S n' =>
      flat_map (fun st => plus_iter step n' (fst st) (snd st) ++ [st])
               (step cap s)
  end.

Fixpoint exec (r : regex) (cap : option string) (s : string) : list state :=
  match r with
  | Eps => [(cap, s)]
  | Chr c =>
      match s with
      | String a s' => if Ascii.eqb a c then [(cap, s')] else []
      | EmptyString => []
      end
  | NotIn cs =>
      match s with
      | String a s' => if Str.mem a cs then [] else [(cap, s')]
      | EmptyString => []
      end
  | Cat r1 r2 => flat_map (fun st => exec r2 (fst st) (snd st)) (exec r1 cap s)
  | Plus r1 => plus_iter (exec r1) (S (String.length s)) cap s
  | Group r1 =>
      map (fun st => (Some (consumed s (snd st)), snd st)) (exec r1 cap s)
  end.

(** [re.match(r, s)]: [None], or the match object, of which only group 1
    is kept. *)
Definition re_match (r : regex) (s : string) : option (option string) :=
  match exec r None s with
  | [] => None
  | st :: _ => Some (fst st)
  end.

(** [re.search(r, s) is not None] *)
Fixpoint re_search (r : regex) (s : string) : bool :=
  match exec r None s with
  | _ :: _ => true
  | [] =>
      match s with
      | EmptyString => false
      | String _ s' => re_search r s'
      end
  end.

End Re.

(** ** URLObject

    A URL as URLObject exposes it: its components, the query as the decoded
    (name, value) pairs of [query.list]; a parameter written without [=] has
    the value [None]. *)

Record URLObject := {
  scheme : string;
  hostname : string;
  path : string;
  query : list (string * option string)
}.

(** [URLObject("http://")] *)
Definition http_root : URLObject :=
  {| scheme := "http"; hostname := ""; path := ""; query := [] |}.

Definition with_hostname (u : URLObject) (h : string) : URLObject :=
  {| scheme := scheme u; hostname := h; path := path u; query := query u |}.

Definition with_path (u : URLObject) (p : string) : URLObject :=
  {| scheme := scheme u; hostname := hostname u; path := p; query := query u |}.

(** [set_query_param(name, value)]: the parameters of that name are dropped
    and the new one is appended. *)
Definition set_query_param (u : URLObject) (name value : string) : URLObject :=
  {| scheme := scheme u; hostname := hostname u; path := path u;
     query := filter (fun nv => negb (String.eqb (fst nv) name)) (query u)
              ++ [(name, Some value)] |}.

(** [dict(pairs).get(name)]: the last pair of that name wins; an absent
    name and a parameter without value both give [None]. *)
Fixpoint dict_get (name : string) (l : list (string * option string))
  : option string :=
  match l with
  | [] => None
  | (n, v) :: l' =>
      if existsb (fun nv => String.eqb (fst nv) name) l' then dict_get name l'
      else if String.eqb n name then v else None
  end.

Definition query_dict_get (u : URLObject) (name : string) : option string :=
  dict_get name (query u).

(** whether the query has a parameter of that name at all *)
Definition has_query_param (u : URLObject) (name : string) : bool :=
  existsb (fun nv => String.eqb (fst nv) name) (query u).

(** truth value of an optional Python string ([None] is false) *)
Definition truthy_opt (o : option string) : bool :=
  match o with
  | Some s => Str.truthy s
  | None => false
  end.

(** ** Scrapy: requests, responses, items and generators *)

Inductive method := GET | POST.

(** the spider methods that are given as callbacks *)
Inductive callback :=
| CbAfterInitialCsrf
| CbAfterInitialLogin
| CbAfterLogin.

Inductive errback := EbHandleError.

(** A request is built from a plain string (the entries of [start_urls])
    or from a URLObject. *)
Inductive url_arg :=
| UStr (s : string)
| UObj (u : URLObject).

Record Request := {
  req_url : url_arg;
  req_method : method;
  req_headers : list (string * option string);
  req_formdata : list (string * string);
  req_callback : option callback;
  req_errback : option errback;
  req_dont_filter : bool
}.

(** [scrapy.Request(url, callback=cb, errback=eb)] *)
Definition scrapy_Request (u : url_arg) (cb : callback) (eb : errback)
  : Request :=
  {| req_url := u; req_method := GET; req_headers := []; req_formdata := [];
     req_callback := Some cb; req_errback := Some eb;
     req_dont_filter := false |}.

(** [scrapy.FormRequest(url, formdata=.., headers=.., callback=..,
    errback=..)]: a non-empty form makes the request a POST. *)
Definition scrapy_FormRequest (u : url_arg) (formdata : list (string * string))
    (headers : list (string * option string)) (cb : callback) (eb : errback)
  : Request :=
  {| req_url := u;
     req_method := match formdata with [] => GET | _ :: _ => POST end;
     req_headers := headers; req_formdata := formdata;
     req_callback := Some cb; req_errback := Some eb;
     req_dont_filter := false |}.

(** [Spider.make_requests_from_url(url)], that is
    [Request(url, dont_filter=True)] *)
Definition make_requests_from_url (u : string) : Request :=
  {| req_url := UStr u; req_method := GET; req_headers := [];
     req_formdata := []; req_callback := None; req_errback := None;
     req_dont_filter := true |}.

(** What a callback reads of a response: its URL (through URLObject), its
    text, the values of its [Set-Cookie] headers (bytes) and the result of
    the XPath query [//title/text()]. *)
Record Response := {
  url : URLObject;
  text : string;
  set_cookie : list string;
  title_texts : list string
}.

(** Modelled from the spec: the item class of [victor_bot_scraper.items],
    whose declaration is not in the source tree; its four fields are those of
    the output record, [{url, request_headers, accessed_at, page_title}].  As
    for any Scrapy item, a field that the constructor call does not set is
    absent ([None] here). *)
Record VictorBotScraperItem := {
  item_url : option URLObject;
  item_request_headers : option (list (string * string));
  item_accessed_at : option nat;
  item_page_title : option (option string)
}.

Inductive output :=
| OReq (r : Request)
| OItem (i : VictorBotScraperItem).

Inductive level := INFO | ERROR.

Inductive event :=
| Yield (o : output)
| Log (l : level) (msg : string).

(** A run of a generator method: what it yields and logs, in order, and the
    exception that ended it, if any. *)
Record gen := { events : list event; raised : option exn }.

Module Gen.

Definition done : gen := {| events := []; raised := None |}.

Definition emit (e : event) (k : gen) : gen :=
  {| events := e :: events k; raised := raised k |}.

Definition fail (e : exn) : gen := {| events := []; raised := Some e |}.

(** evaluate an expression that may raise, then go on *)
Definition try {A : Type} (r : result A) (k : A -> gen) : gen :=
  match r with
  | Ok a => k a
  | Raise e => fail e
  end.

(** [for x in g: yield x], then go on: an exception of [g] ends the run *)
Definition yield_from (g k : gen) : gen :=
  match raised g with
  | None => {| events := events g ++ events k; raised := raised k |}
  | Some e => g
  end.

(** [for x in l: yield f x] *)
Fixpoint yield_each {A : Type} (f : A -> output) (l : list A) (k : gen)
  : gen :=
  match l with
  | [] => k
  | x :: l' => emit (Yield (f x)) (yield_each f l' k)
  end.

End Gen.

Notation "'yield' o ;; k" := (Gen.emit (Yield o) k)
  (at level 61, o at next level, right associativity).
Notation "'log' l m ;; k" := (Gen.emit (Log l m) k)
  (at level 61, l at level 0, m at level 0, right associativity).
Notation "'let*' x := r 'in' k" := (Gen.try r (fun x => k))
  (at level 61, x name, r at next level, right associativity).

Definition yielded (g : gen) : list output :=
  flat_map (fun e => match e with Yield o => [o] | Log _ _ => [] end)
           (events g).

Definition logged (g : gen) : list (level * string) :=
  flat_map (fun e => match e with Yield _ => [] | Log l m => [(l, m)] end)
           (events g).

Definition requests (g : gen) : list Request :=
  flat_map (fun o => match o with OReq r => [r] | OItem _ => [] end)
           (yielded g).

Definition items (g : gen) : list VictorBotScraperItem :=
  flat_map (fun o => match o with OReq _ => [] | OItem i => [i] end)
           (yielded g).

(** ** Scrapy's link extractor, as the spider configures it

    [LinkExtractor(deny=.., unique=True)] keeps, of the links of a page, those
    that pass the checks it makes by default (on the scheme of the link and on
    the file extensions it ignores, both left at their defaults by the
    spider) and in whose URL none of the [deny] expressions is found
    ([re.search]), and returns each URL once, in the order of the page.  The
    default checks are Scrapy's own and change with its version: the
    extractor takes them as the parameter [passes_defaults];
    [ScrapyDefaults.passes_defaults] gives them for one version. *)

Module LinkExtractor.

Definition denied (deny : list Re.regex) (link : string) : bool :=
  existsb (fun r => Re.re_search r link) deny.

Definition seen_before (x : string) (seen : list string) : bool :=
  existsb (String.eqb x) seen.

Fixpoint unique_list (seen : list string) (l : list string) : list string :=
  match l with
  | [] => []
  | x :: l' =>
      if seen_before x seen then unique_list seen l'
      else x :: unique_list (x :: seen) l'
  end.

Section Defaults.

Variable passes_defaults : string -> bool.

(** [_link_allowed(link)] *)
Definition link_allowed (deny : list Re.regex) (link : string) : bool :=
  passes_defaults link && negb (denied deny link).

Definition extract_links (deny : list Re.regex) (unique : bool)
    (links : list string) : list string :=
  let allowed := filter (link_allowed deny) links in
  if unique then unique_list [] allowed else allowed.

End Defaults.

End LinkExtractor.

(** ** The spider *)

Module Spider.

Definition LOGIN_HTML_PATH := "/login".
Definition LOGIN_API_PATH := "/user_api/v1/account/login_session/".
Definition AUTO_AUTH_PATH := "/auto_auth".
Definition COURSE_BLOCKS_API_PATH := "/api/courses/v1/blocks/".
Definition LOGIN_FAILURE_MSG := "We couldn't sign you in.".

(** [h.decode('ascii')] *)
Definition is_ascii (c : ascii) : bool := Nat.ltb (nat_of_ascii c) 128.

Fixpoint all_ascii (h : string) : bool :=
  match h with
  | EmptyString => true
  | String c h' => is_ascii c && all_ascii h'
  end.

Definition decode_ascii (h : string) : result string :=
  if all_ascii h then Ok h else Raise UnicodeDecodeError.

(** [[h.decode('ascii') for h in headers]] *)
Fixpoint decode_headers (hs : list string) : result (list string) :=
  match hs with
  | [] => Ok []
  | h :: hs' =>
      match decode_ascii h with
      | Raise e => Raise e
      | Ok d =>
          match decode_headers hs' with
          | Raise e => Raise e
          | Ok ds => Ok (d :: ds)
          end
      end
  end.

(** the pattern ["csrftoken=([^ ;]+);"] *)
Definition csrf_pattern : Re.regex :=
  Re.Cat (Re.Lit "csrftoken=")
         (Re.Cat (Re.Group (Re.Plus (Re.NotIn [" "%char; ";"%char])))
                 (Re.Chr ";")).

(** [get_csrf_token(response)], on the values of the [Set-Cookie] headers
    of the response.  [match.group(1)] on a failed match, which is [None],
    raises [AttributeError]. *)
Definition get_csrf_token (set_cookie_headers : list string)
  : result (option string) :=
  match decode_headers set_cookie_headers with
  | Raise e => Raise e
  | Ok cookie_headers =>
      match cookie_headers with
      | [] => Ok None
      | _ :: _ =>
          let csrf_headers :=
            filter (Str.startswith "csrftoken=") cookie_headers in
          match csrf_headers with
          | [] => Ok None
          | _ :: _ =>
              match Re.re_match csrf_pattern (last csrf_headers "") with
              | None => Raise AttributeError
              | Some group1 => Ok group1
              end
          end
      end
  end.

(** the [deny] list of the crawl rule *)
Definition deny_logout : Re.regex := Re.Lit "/logout/".
Definition deny_xblock : Re.regex :=
  Re.Cat (Re.Lit "://") (Re.Cat (Re.Plus (Re.NotIn ["/"%char]))
                                 (Re.Lit "/xblock/")).
Definition deny_archive : Re.regex := Re.Lit "?_accept=application/x-tgz".

Definition deny : list Re.regex := [deny_logout; deny_xblock; deny_archive].

(** [rules]: the links the one rule of the spider follows from a page,
    given the default checks of the installed link extractor *)
Definition rules (passes_defaults : string -> bool) (links : list string)
  : list string :=
  LinkExtractor.extract_links passes_defaults deny true links.

(** The attributes of the spider.  [data_dir], a path that [os.path]
    resolves against the file system and that no callback reads, is left
    out. *)
Record QuestionFinder := {
  login_email : string;
  login_password : string;
  domain : string;
  course_key : string;
  http_user : option string;
  http_pass : option string;
  start_urls : list string;
  allowed_domains : list string
}.

(** [__init__] *)
Definition init (domain email password : string)
    (http_user http_pass : option string) (course_key : string)
  : QuestionFinder :=
  let api_url :=
    set_query_param
      (set_query_param
         (set_query_param
            (with_path (with_hostname http_root domain) COURSE_BLOCKS_API_PATH)
            "course_id" course_key)
         "depth" "all")
      "all_blocks" "true" in
  {| login_email := email;
     login_password := password;
     domain := domain;
     course_key := course_key;
     http_user := http_user;
     http_pass := http_pass;
     start_urls :=
       ["https://jzoldak.sandbox.edx.org/courses/course-v1:edX+Test101+course/info"];
     allowed_domains := [domain] |}.

(** [QuestionFinder()], all arguments at their defaults *)
Definition default_spider : QuestionFinder :=
  init "jzoldak.sandbox.edx.org" "myoungstrom@edx.org" "victor" None None
       "course-v1:edX+Test101+course".

Definition credentials_failed_msg :=
  "Credentials failed. Either add/update the current credentials or remove them to enable auto auth".

Definition login_page_url (self : QuestionFinder) : URLObject :=
  with_path (with_hostname http_root (domain self)) LOGIN_HTML_PATH.

Definition login_api_url (self : QuestionFinder) : URLObject :=
  with_path (with_hostname http_root (domain self)) LOGIN_API_PATH.

Definition credentials (self : QuestionFinder) : list (string * string) :=
  [("email", login_email self); ("password", login_password self)].

Definition start_requests (self : QuestionFinder) : gen :=
  if Str.truthy (login_email self) && Str.truthy (login_password self) then
    yield (OReq (scrapy_Request (UObj (login_page_url self))
                                CbAfterInitialCsrf EbHandleError)) ;;
    Gen.done
  else
    log INFO "Please enter valid email/password combination" ;;
    Gen.done.

Definition after_initial_csrf (self : QuestionFinder) (response : Response)
  : gen :=
  let login_url := login_api_url self in
  let* token := get_csrf_token (set_cookie response) in
  let headers := [("X-CSRFToken", token)] in
  yield (OReq (scrapy_FormRequest (UObj login_url) (credentials self) headers
                                  CbAfterInitialLogin EbHandleError)) ;;
  Gen.done.

Definition after_initial_login (self : QuestionFinder) (response : Response)
  : gen :=
  if Str.contains LOGIN_FAILURE_MSG (text response) then
    log ERROR credentials_failed_msg ;;
    Gen.done
  else
    log INFO "successfully completed initial login" ;;
    Gen.yield_each (fun u => OReq (make_requests_from_url u))
                   (start_urls self) Gen.done.

(** the value of [login_url] in [handle_unexpected_redirect_to_login_page]
    once [next_url] has been tested *)
Definition resume_login_url (self : QuestionFinder) (response : Response)
  : URLObject :=
  let next_url := query_dict_get (url response) "next" in
  let login_url := login_api_url self in
  match next_url with
  | Some next =>
      if Str.truthy next then set_query_param login_url "next" next
      else login_url
  | None => login_url
  end.

Definition handle_unexpected_redirect_to_login_page (self : QuestionFinder)
    (response : Response) : gen :=
  let login_url := resume_login_url self response in
  let* token := get_csrf_token (set_cookie response) in
  let headers := [("X-CSRFToken", token)] in
  yield (OReq (scrapy_FormRequest (UObj login_url) (credentials self) headers
                                  CbAfterLogin EbHandleError)) ;;
  Gen.done.

Definition parse_item (self : QuestionFinder) (response : Response) : gen :=
  Gen.yield_from
    (if String.eqb (path (url response)) LOGIN_HTML_PATH
     then handle_unexpected_redirect_to_login_page self response
     else Gen.done)
    (let title := hd_error (title_texts response) in
     let title :=
       if truthy_opt title then option_map Str.strip title else title in
     let item :=
       {| item_url := Some (url response);
          item_request_headers := None;
          item_accessed_at := None;
          item_page_title := Some title |} in
     yield (OItem item) ;;
     Gen.done).

Definition after_login (self : QuestionFinder) (response : Response) : gen :=
  Gen.yield_from (parse_item self response) Gen.done.

End Spider.

(** ** The components of a link

    What the statements about links call the path and the query of an
    absolute link [scheme://netloc/path?query#fragment], read off its text as
    [urlsplit] does. *)

Module Link.

Definition is_char (c : ascii) : ascii -> bool := Ascii.eqb c.

Definition after_netloc (link : string) : string :=
  let rest := snd (Str.break (is_char ":") link) in
  match rest with
  | String _ (String "/" (String "/" r)) =>
      snd (Str.break (fun c => Str.mem c ["/"; "?"; "#"]%char) r)
  | String _ r => r
  | EmptyString => EmptyString
  end.

Definition path_of (link : string) : string :=
  fst (Str.break (fun c => Str.mem c ["?"; "#"]%char) (after_netloc link)).

Definition query_of (link : string) : string :=
  let no_fragment := fst (Str.break (is_char "#") (after_netloc link)) in
  match snd (Str.break (is_char "?") no_fragment) with
  | String _ q => q
  | EmptyString => EmptyString
  end.

End Link.

(** ** The default checks of the link extractor

    Scrapy's [_is_valid_url] and [url_has_any_extension] with the table
    [IGNORED_EXTENSIONS], as in Scrapy 2.12: a link passes when the text
    before its first [://] is one of four schemes and the lower-cased path of
    the URL ([urlparse(url).path]) ends with none of the ignored extensions. *)

Module ScrapyDefaults.

(** [url.split('://', 1)[0]] *)
Fixpoint before_scheme_separator (url : string) : string :=
  if Str.startswith "://" url then EmptyString
  else match url with
       | EmptyString => EmptyString
       | String c url' => String c (before_scheme_separator url')
       end.

Definition is_valid_url (url : string) : bool :=
  existsb (String.eqb (before_scheme_separator url))
          ["http"; "https"; "file"; "ftp"]%string.

(** [urlparse] takes the parameters off the path: the last segment is cut
    at its first semicolon. *)
Fixpoint without_params (path : string) : string :=
  match path with
  | EmptyString => EmptyString
  | String c path' =>
      if Str.contains "/" path' then String c (without_params path')
      else fst (Str.break (Ascii.eqb ";") path)
  end.

(** [urlparse(url).path] *)
Definition urlparse_path (url : string) : string :=
  without_params (Link.path_of url).

(** [str.lower] on the code points below 256 *)
Definition lower_char (c : ascii) : ascii :=
  let n := nat_of_ascii c in
  if (Nat.leb 65 n && Nat.leb n 90)
     || (Nat.leb 192 n && Nat.leb n 222 && negb (Nat.eqb n 215))
  then ascii_of_nat (n + 32)
  else c.

Fixpoint lower (s : string) : string :=
  match s with
  | EmptyString => EmptyString
  | String c s' => String (lower_char c) (lower s')
  end.

(** [s.endswith(suffix)] *)
Fixpoint endswith (suffix s : string) : bool :=
  String.eqb suffix s ||
  match s with
  | EmptyString => false
  | String _ s' => endswith suffix s'
  end.

Definition IGNORED_EXTENSIONS : list string :=
  [ (* archives *)
    "7z"; "7zip"; "bz2"; "rar"; "tar"; "tar.gz"; "xz"; "zip";
    (* images *)
    "mng"; "pct"; "bmp"; "gif"; "jpg"; "jpeg"; "png"; "pst"; "psp"; "tif";
    "tiff"; "ai"; "drw"; "dxf"; "eps"; "ps"; "svg"; "cdr"; "ico"; "webp";
    (* audio *)
    "mp3"; "wma"; "ogg"; "wav"; "ra"; "aac"; "mid"; "au"; "aiff";
    (* video *)
    "3gp"; "asf"; "asx"; "avi"; "mov"; "mp4"; "mpg"; "qt"; "rm"; "swf"; "wmv";
    "m4a"; "m4v"; "flv"; "webm";
    (* office suites *)
    "xls"; "xlsx"; "ppt"; "pptx"; "pps"; "doc"; "docx"; "odt"; "ods"; "odg";
    "odp";
    (* other *)
    "css"; "pdf"; "exe"; "bin"; "rss"; "dmg"; "iso"; "apk"; "jar"; "sh"; "rb";
    "js"; "hta"; "bat"; "cpl"; "msi"; "msp"; "py" ]%string.

(** the [deny_extensions] of an extractor built without that argument *)
Definition deny_extensions : list string :=
  map (fun e => ("." ++ e)%string) IGNORED_EXTENSIONS.

Definition url_has_any_extension (url : string) (extensions : list string)
  : bool :=
  let lowercase_path := lower (urlparse_path url) in
  existsb (fun ext => endswith ext lowercase_path) extensions.

Definition passes_defaults (link : string) : bool :=
  is_valid_url link && negb (url_has_any_extension link deny_extensions).

End ScrapyDefaults.

(** ** Concrete responses, spiders and links *)

Module Examples.

Import Spider.

(** the login page, reached by a redirect from a course page *)
Definition login_redirect : Response :=
  {| url := {| scheme := "https"; hostname := "jzoldak.sandbox.edx.org";
               path := "/login";
               query := [("next", Some "/courses/course-v1:edX+Test101+course/progress")] |};
     text := "<html><title>  Sign in  </title></html>";
     set_cookie := ["sessionid=; Path=/"; "csrftoken=abc123; Path=/"];
     title_texts := ["  Sign in  "] |}.

(** the same redirect, with an empty [next] parameter: [/login?next=] *)
Definition login_redirect_empty_next : Response :=
  {| url := {| scheme := "https"; hostname := "jzoldak.sandbox.edx.org";
               path := "/login"; query := [("next", Some "")] |};
     text := "<html><title>  Sign in  </title></html>";
     set_cookie := ["csrftoken=abc123; Path=/"];
     title_texts := ["  Sign in  "] |}.

(** the same redirect, with a token cookie that has no attributes *)
Definition login_redirect_bare_cookie : Response :=
  {| url := {| scheme := "https"; hostname := "jzoldak.sandbox.edx.org";
               path := "/login";
               query := [("next", Some "/courses/course-v1:edX+Test101+course/progress")] |};
     text := "<html><title>  Sign in  </title></html>";
     set_cookie := ["csrftoken=abc123"];
     title_texts := ["  Sign in  "] |}.

(** a course page *)
Definition course_info : Response :=
  {| url := {| scheme := "https"; hostname := "jzoldak.sandbox.edx.org";
               path := "/courses/course-v1:edX+Test101+course/info";
               query := [] |};
     text := "<html><title>  Course Info  </title></html>";
     set_cookie := [];
     title_texts := ["  Course Info  "] |}.

(** a login response that reports the rejection of the credentials *)
Definition rejected_login : Response :=
  {| url := {| scheme := "http"; hostname := "jzoldak.sandbox.edx.org";
               path := "/user_api/v1/account/login_session/";
               query := [] |};
     text := "We couldn't sign you in. Email or password is incorrect.";
     set_cookie := [];
     title_texts := [] |}.

(** the login page shown again, with the rejection message *)
Definition rejected_login_page : Response :=
  {| url := {| scheme := "https"; hostname := "jzoldak.sandbox.edx.org";
               path := "/login"; query := [] |};
     text := "<html><title>Sign in</title>We couldn't sign you in.</html>";
     set_cookie := ["csrftoken=abc123; Path=/"];
     title_texts := ["Sign in"] |}.

(** a spider for another site and course *)
Definition other_spider : QuestionFinder :=
  init "courses.example.org" "staff@example.org" "secret" None None
       "course-v1:Org+Num101+Run".

Definition default_seed :=
  "https://jzoldak.sandbox.edx.org/courses/course-v1:edX+Test101+course/info".

Definition nested_xblock_link := "https://host/courses/xblock/foo/view".
Definition archive_link := "https://host/export?name=a&_accept=application/x-tgz".
Definition plain_link := "https://host/courses/about".

(** a byte string that is not ASCII *)
Definition latin1_cookie := String (ascii_of_nat 233) "=1; Path=/".

End Examples.

(** ** The error callback *)

Module Errback.

Import Spider.

(** What [handle_error] reads of a Twisted failure: its [repr], and, by the
    class of the exception it wraps, the URL and status of the response of an
    [HttpError] or the URL of the request of a [DNSLookupError]. *)
Inductive failure_value :=
| HttpError (response_url : string) (response_status : nat)
| DNSLookupError (request_url : string)
| OtherFailure.

Record Failure := {
  failure_repr : string;
  value : failure_value
}.

(** ['%s' % status] *)
Definition status_text (status : nat) : string :=
  NilZero.string_of_uint (Nat.to_uint status).

(** [handle_error(failure)]: the records it logs, in order *)
Definition handle_error (self : QuestionFinder) (failure : Failure)
  : list (level * string) :=
  (ERROR, failure_repr failure) ::
  match value failure with
  | HttpError response_url response_status =>
      [(ERROR, ("HttpError on " ++ response_url)%string);
       (ERROR, ("HttpError Code: " ++ status_text response_status)%string)]
      ++ (if Nat.eqb response_status 401 || Nat.eqb response_status 403
          then [(ERROR, credentials_failed_msg)]
          else [])
  | DNSLookupError request_url =>
      [(ERROR, ("DNSLookupError on " ++ request_url)%string)]
  | OtherFailure => []
  end.

End Errback.

(** ** Predicates on text *)

Module Text.

Definition first_char (s : string) : option ascii :=
  match s with
  | EmptyString => None
  | String c _ => Some c
  end.

Fixpoint last_char (s : string) : option ascii :=
  match s with
  | EmptyString => None
  | String c s' =>
      match last_char s' with
      | None => Some c
      | Some d => Some d
      end
  end.

Definition is_space_opt (o : option ascii) : bool :=
  match o with
  | Some c => Str.is_space c
  | None => false
  end.

(** neither the first nor the last character is white space *)
Definition trimmed (s : string) : bool :=
  negb (is_space_opt (first_char s)) && negb (is_space_opt (last_char s)).

(** every character is white space *)
Fixpoint all_space (s : string) : bool :=
  match s with
  | EmptyString => true
  | String c s' => Str.is_space c && all_space s'
  end.

End Text.

(** ** Further concrete inputs *)

Module MoreExamples.

Import Spider Errback.

Definition forbidden : Failure :=
  {| failure_repr := "<twisted.python.failure.Failure HttpError>";
     value := HttpError "http://jzoldak.sandbox.edx.org/user_api/v1/account/login_session/" 403 |}.

Definition not_found : Failure :=
  {| failure_repr := "<twisted.python.failure.Failure HttpError>";
     value := HttpError "https://jzoldak.sandbox.edx.org/courses/missing" 404 |}.

(** a spider started without a password *)
Definition no_password_spider : QuestionFinder :=
  init "jzoldak.sandbox.edx.org" "myoungstrom@edx.org" "" None None
       "course-v1:edX+Test101+course".

(** a login page that sets no token cookie *)
Definition login_page_without_token : Response :=
  {| url := {| scheme := "http"; hostname := "jzoldak.sandbox.edx.org";
               path := "/login"; query := [] |};
     text := "<html><title>Sign in</title></html>";
     set_cookie := ["sessionid=1; Path=/"];
     title_texts := ["Sign in"] |}.

(** a page whose title is only white space *)
Definition blank_title_page : Response :=
  {| url := {| scheme := "https"; hostname := "jzoldak.sandbox.edx.org";
               path := "/courses/course-v1:edX+Test101+course/about";
               query := [] |};
     text := "<html><title>   </title></html>";
     set_cookie := ["csrftoken=abc123"];
     title_texts := ["   "] |}.

End MoreExamples.

(** ** Facts about the string operations *)

Module StrFacts.

Lemma startswith_app (p s : string) :
  Str.startswith p (p ++ s)%string = true.
Proof.
  induction p as [|a p IH]; simpl.
  - reflexivity.
  - now rewrite Ascii.eqb_refl.
Qed.

Lemma startswith_inv (p s : string) :
  Str.startswith p s = true -> exists t, s = (p ++ t)%string.
Proof.
  revert s; induction p as [|a p IH]; intros s H.
  - now exists s.
  - destruct s as [|b s]; simpl in H; [discriminate|].
    apply andb_true_iff in H as [Hab Hps].
    apply Ascii.eqb_eq in Hab; subst b.
    destruct (IH _ Hps) as [t ->].
    now exists t.
Qed.

Lemma contains_startswith (p s : string) :
  Str.startswith p s = true -> Str.contains p s = true.
Proof.
  intros H. destruct s; simpl; now rewrite H.
Qed.

Lemma contains_intro (a p b : string) :
  Str.contains p (a ++ p ++ b)%string = true.
Proof.
  induction a as [|c a IH].
  - cbn [append]. apply contains_startswith, startswith_app.
  - simpl. rewrite IH. apply orb_true_r.
Qed.

Lemma contains_inv (p s : string) :
  Str.contains p s = true -> exists a b, s = (a ++ p ++ b)%string.
Proof.
  induction s as [|c s IH]; simpl; intros H.
  - rewrite orb_false_r in H.
    destruct (startswith_inv _ _ H) as [t ->]. now exists ""%string, t.
  - apply orb_true_iff in H as [H|H].
    + destruct (startswith_inv _ _ H) as [t Ht]. exists ""%string, t. exact Ht.
    + destruct (IH H) as (a & b & ->). now exists (String c a), b.
Qed.

Lemma append_assoc (a b c : string) :
  ((a ++ b) ++ c = a ++ (b ++ c))%string.
Proof.
  induction a as [|x a IH]; simpl; [reflexivity | now rewrite IH].
Qed.

(** a text that occurs in a part of a string occurs in the string *)
Lemma contains_part (p pre part post : string) :
  Str.contains p part = true ->
  Str.contains p (pre ++ part ++ post)%string = true.
Proof.
  intros H. destruct (contains_inv _ _ H) as (a & b & ->).
  replace (pre ++ (a ++ p ++ b) ++ post)%string
    with ((pre ++ a) ++ p ++ (b ++ post))%string.
  - apply contains_intro.
  - now rewrite !append_assoc.
Qed.

End StrFacts.

(** ** Facts about the matcher *)

Module ReFacts.

Lemma exec_Lit_app (p : string) (cap : option string) (s : string) :
  Re.exec (Re.Lit p) cap (p ++ s)%string = [(cap, s)].
Proof.
  induction p as [|a p IH]; simpl.
  - reflexivity.
  - rewrite Ascii.eqb_refl. simpl. rewrite IH. reflexivity.
Qed.

Lemma exec_Lit_nomatch (p : string) (cap : option string) (s : string) :
  Str.startswith p s = false -> Re.exec (Re.Lit p) cap s = [].
Proof.
  revert s; induction p as [|a p IH]; intros s H; simpl in H.
  - discriminate.
  - destruct s as [|b s]; simpl; [reflexivity|].
    destruct (Ascii.eqb_spec b a) as [->|Hne]; [|reflexivity].
    rewrite Ascii.eqb_refl in H. simpl in *. now rewrite IH.
Qed.

(** searching a literal text is Python's [in] *)
Lemma re_search_Lit (p s : string) :
  Re.re_search (Re.Lit p) s = Str.contains p s.
Proof.
  induction s as [|c s IH].
  - simpl. destruct (Str.startswith p "") eqn:E.
    + destruct (StrFacts.startswith_inv _ _ E) as [t Ht].
      rewrite Ht at 1. now rewrite exec_Lit_app.
    + now rewrite exec_Lit_nomatch.
  - cbn [Re.re_search Str.contains].
    destruct (Str.startswith p (String c s)) eqn:E.
    + destruct (StrFacts.startswith_inv _ _ E) as [t Ht].
      rewrite Ht at 1. now rewrite exec_Lit_app.
    + rewrite exec_Lit_nomatch by exact E. exact IH.
Qed.

(** a match at some position is found by the search *)
Lemma re_search_at (r : Re.regex) (pre s : string) :
  Re.exec r None s <> [] -> Re.re_search r (pre ++ s)%string = true.
Proof.
  intros H. induction pre as [|c pre IH].
  - cbn [append]. destruct s; simpl; destruct (Re.exec r None _);
      congruence.
  - cbn [append Re.re_search].
    destruct (Re.exec r None (String c (pre ++ s))); [exact IH | reflexivity].
Qed.

Lemma exec_Cat_hd (r1 r2 : Re.regex) (cap : option string) (s : string)
    (st st' : Re.state) (l l' : list Re.state) :
  Re.exec r1 cap s = st :: l ->
  Re.exec r2 (fst st) (snd st) = st' :: l' ->
  exists l'', Re.exec (Re.Cat r1 r2) cap s = st' :: l''.
Proof.
  intros H1 H2. simpl. rewrite H1. simpl. rewrite H2. simpl. eauto.
Qed.

(** The greedy run of a negated class: over a non-empty text free of the
    excluded characters, followed by an excluded character or by the end, the
    first way to match [[^cs]+] takes the whole text. *)
Lemma plus_iter_run (cs : list ascii) (host : string) :
  forall (n : nat) (cap : option string) (t : string),
    host <> ""%string ->
    Str.free_of cs host = true ->
    String.length host <= n ->
    match t with
    | EmptyString => true
    | String c _ => Str.mem c cs
    end = true ->
    exists l,
      Re.plus_iter (Re.exec (Re.NotIn cs)) n cap (host ++ t)%string
      = (cap, t) :: l.
Proof.
  induction host as [|c h IH]; intros n cap t Hne Hfree Hlen Ht.
  - congruence.
  - simpl in Hfree. apply andb_true_iff in Hfree as [Hc Hh].
    apply negb_true_iff in Hc.
    destruct n as [|n]; simpl in Hlen; [lia|].
    cbn [append Re.plus_iter].
    change (Re.exec (Re.NotIn cs) cap (String c (h ++ t)))
      with (if Str.mem c cs then [] else [(cap, (h ++ t)%string)]).
    rewrite Hc. cbn [flat_map fst snd]. rewrite app_nil_r.
    destruct h as [|c' h'].
    + cbn [append]. exists [].
      destruct n as [|n]; [reflexivity|].
      cbn [Re.plus_iter]. destruct t as [|d t]; simpl.
      * reflexivity.
      * now rewrite Ht.
    + destruct (IH n cap t) as [l Hl]; [congruence | exact Hh | lia | exact Ht |].
      rewrite Hl. simpl. eauto.
Qed.

Lemma exec_Group (r : Re.regex) (cap : option string) (s : string) :
  Re.exec (Re.Group r) cap s
  = map (fun st => (Some (Re.consumed s (snd st)), snd st)) (Re.exec r cap s).
Proof. reflexivity. Qed.

Lemma exec_Plus (r : Re.regex) (cap : option string) (s : string) :
  Re.exec (Re.Plus r) cap s
  = Re.plus_iter (Re.exec r) (S (String.length s)) cap s.
Proof. reflexivity. Qed.

Lemma length_app (a b : string) :
  String.length (a ++ b)%string = String.length a + String.length b.
Proof.
  induction a as [|c a IH]; simpl; [reflexivity | now rewrite IH].
Qed.

Lemma substring_prefix (a b : string) :
  substring 0 (String.length a) (a ++ b)%string = a.
Proof.
  induction a as [|c a IH]; simpl.
  - now destruct b.
  - now rewrite IH.
Qed.

Lemma consumed_app (a b : string) : Re.consumed (a ++ b)%string b = a.
Proof.
  unfold Re.consumed. rewrite length_app.
  replace (String.length a + String.length b - String.length b)
    with (String.length a) by lia.
  apply substring_prefix.
Qed.

End ReFacts.

(** ** Facts about the link extractor *)

Module LinkFacts.

Import LinkExtractor.

Lemma seen_before_In (x : string) (seen : list string) :
  seen_before x seen = true <-> In x seen.
Proof.
  unfold seen_before. rewrite existsb_exists. split.
  - intros (y & Hy & E). apply String.eqb_eq in E. now subst.
  - intros H. exists x. split; [exact H | apply String.eqb_refl].
Qed.

Lemma unique_list_In (l seen : list string) (x : string) :
  In x (unique_list seen l) <-> In x l /\ ~ In x seen.
Proof.
  revert seen; induction l as [|y l IH]; intros seen; simpl.
  - tauto.
  - destruct (seen_before y seen) eqn:E.
    + apply seen_before_In in E. rewrite IH. split.
      * tauto.
      * intros [[->|H] Hn]; tauto.
    + assert (Hy : ~ In y seen).
      { intros H. apply seen_before_In in H. congruence. }
      simpl. rewrite IH. simpl. split.
      * intros [->|[H Hn]]; [tauto|]. split; [tauto|]. tauto.
      * intros [[->|H] Hn]; [tauto|].
        destruct (String.eqb_spec y x) as [->|Hne]; [tauto|]. right. tauto.
Qed.

Lemma unique_list_NoDup (l seen : list string) : NoDup (unique_list seen l).
Proof.
  revert seen; induction l as [|y l IH]; intros seen; simpl.
  - constructor.
  - destruct (seen_before y seen); [apply IH|].
    constructor; [|apply IH].
    rewrite unique_list_In. simpl. tauto.
Qed.

Lemma extract_links_In (passes_defaults : string -> bool)
    (deny : list Re.regex) (links : list string) (x : string) :
  In x (extract_links passes_defaults deny true links) <->
  In x links /\ passes_defaults x = true /\ denied deny x = false.
Proof.
  unfold extract_links, link_allowed.
  rewrite unique_list_In, filter_In, andb_true_iff, negb_true_iff.
  simpl. tauto.
Qed.

End LinkFacts.

(** ** The token extractor *)

Module TokenExtractor.

Import Spider Examples.

Lemma decode_headers_ascii (hs : list string) :
  forallb all_ascii hs = true -> decode_headers hs = Ok hs.
Proof.
  induction hs as [|h hs IH]; simpl; intros H.
  - reflexivity.
  - apply andb_true_iff in H as [Hh Hhs].
    unfold decode_ascii. now rewrite Hh, IH.
Qed.

Lemma decode_headers_not_ascii (hs : list string) :
  forallb all_ascii hs = false -> decode_headers hs = Raise UnicodeDecodeError.
Proof.
  induction hs as [|h hs IH]; simpl; intros H.
  - discriminate.
  - unfold decode_ascii. destruct (all_ascii h); simpl in H.
    + now rewrite IH.
    + reflexivity.
Qed.

Lemma filter_none {A : Type} (f : A -> bool) (l : list A) :
  (forall x, In x l -> f x = false) -> filter f l = [].
Proof.
  induction l as [|x l IH]; simpl; intros H.
  - reflexivity.
  - rewrite (H x) by now left. apply IH. intros y Hy. apply H. now right.
Qed.

(** the pattern on a header [csrftoken=<tok>;<rest>] *)
Lemma csrf_pattern_match (tok rest : string) :
  tok <> ""%string ->
  Str.free_of [" "%char; ";"%char] tok = true ->
  Re.re_match csrf_pattern ("csrftoken=" ++ tok ++ ";" ++ rest)%string
  = Some (Some tok).
Proof.
  intros Hne Hfree.
  set (s := (tok ++ ";" ++ rest)%string).
  destruct (ReFacts.plus_iter_run [" "%char; ";"%char] tok
              (S (String.length s)) None (";" ++ rest)%string)
    as [l Hl]; [exact Hne | exact Hfree | | reflexivity |].
  { unfold s. rewrite ReFacts.length_app. lia. }
  assert (Hg : Re.exec (Re.Group (Re.Plus (Re.NotIn [" "%char; ";"%char])))
                 None s
               = (Some tok, (";" ++ rest)%string)
                   :: map (fun st => (Some (Re.consumed s (snd st)), snd st)) l).
  { rewrite ReFacts.exec_Group, ReFacts.exec_Plus.
    fold s in Hl. rewrite Hl. cbn [map snd].
    f_equal. f_equal. f_equal. apply ReFacts.consumed_app. }
  assert (Hc : Re.exec (Re.Chr ";") (Some tok) (";" ++ rest)%string
               = [(Some tok, rest)]) by reflexivity.
  destruct (ReFacts.exec_Cat_hd _ _ _ _ _ _ _ _ Hg Hc) as [l2 H2].
  destruct (ReFacts.exec_Cat_hd (Re.Lit "csrftoken=") _ None
              ("csrftoken=" ++ s)%string _ _ _ _
              (ReFacts.exec_Lit_app _ _ _) H2) as [l3 H3].
  unfold Re.re_match, csrf_pattern. fold s. now rewrite H3.
Qed.

(** C10, at the headers the claim names: a token cookie whose value is ended
    by the end of the header or by a space makes the extraction raise
    [AttributeError]; the header of the scenario gives its token. *)
Theorem get_csrf_token_needs_semicolon :
  get_csrf_token ["csrftoken=abc123"] = Raise AttributeError /\
  get_csrf_token ["csrftoken=abc123 Path=/"] = Raise AttributeError /\
  get_csrf_token ["csrftoken=abc123; Path=/"] = Ok (Some "abc123"%string).
Proof. repeat split; vm_compute; reflexivity. Qed.

(** C9 as stated fails: a header that is not ASCII makes the extraction
    raise although no entry begins with the cookie's name, and the last of
    two token entries, when no semicolon ends its value, makes it raise
    instead of giving that entry's value. *)
Lemma get_csrf_token_raises :
  forallb (Str.startswith "csrftoken=") [latin1_cookie] = false /\
  get_csrf_token [latin1_cookie] = Raise UnicodeDecodeError /\
  get_csrf_token ["csrftoken=first; Path=/"; "csrftoken=second"]
  = Raise AttributeError.
Proof. repeat split; vm_compute; reflexivity. Qed.

(** C9, amended: on ASCII headers, no entry beginning with [csrftoken=]
    gives [None], and a last such entry of the form [csrftoken=<tok>;...]
    gives [tok], whatever the entries before it. *)
Theorem get_csrf_token_last_entry (hs : list string) :
  forallb all_ascii hs = true ->
  ((forall h, In h hs -> Str.startswith "csrftoken=" h = false) ->
   get_csrf_token hs = Ok None) /\
  (forall tok rest : string,
     last (filter (Str.startswith "csrftoken=") hs) ""%string
     = ("csrftoken=" ++ tok ++ ";" ++ rest)%string ->
     tok <> ""%string ->
     Str.free_of [" "%char; ";"%char] tok = true ->
     get_csrf_token hs = Ok (Some tok)).
Proof.
  intros Hascii. unfold get_csrf_token.
  rewrite (decode_headers_ascii _ Hascii). split.
  - intros Hnone. destruct hs as [|h hs]; [reflexivity|].
    now rewrite (filter_none _ _ Hnone).
  - intros tok rest Hlast Hne Hfree.
    destruct hs as [|h hs]; [discriminate Hlast|].
    destruct (filter (Str.startswith "csrftoken=") (h :: hs)) as [|c cs] eqn:E;
      [discriminate Hlast|].
    rewrite Hlast. now rewrite csrf_pattern_match.
Qed.

Lemma get_csrf_token_last_entry_witness :
  get_csrf_token ["sessionid=1; Path=/"] = Ok None /\
  get_csrf_token ["csrftoken=first; Path=/"; "sessionid=1; Path=/";
                  "csrftoken=second; Path=/"]
  = Ok (Some "second"%string).
Proof.
  split.
  - apply (get_csrf_token_last_entry ["sessionid=1; Path=/"]).
    + reflexivity.
    + intros h [<-|[]]. reflexivity.
  - apply (get_csrf_token_last_entry
             ["csrftoken=first; Path=/"; "sessionid=1; Path=/";
              "csrftoken=second; Path=/"] eq_refl)
      with (rest := " Path=/"%string).
    + reflexivity.
    + discriminate.
    + reflexivity.
Defined.

End TokenExtractor.

(** ** The link policy *)

Module LinkPolicy.

Import Spider Examples.

Lemma denied_false (link : string) :
  LinkExtractor.denied deny link = false ->
  Re.re_search deny_logout link = false /\
  Re.re_search deny_xblock link = false /\
  Re.re_search deny_archive link = false.
Proof.
  unfold LinkExtractor.denied, deny. cbn [existsb]. intros H.
  apply orb_false_iff in H as [H1 H].
  apply orb_false_iff in H as [H2 H].
  apply orb_false_iff in H as [H3 _]. auto.
Qed.

(** the second pattern finds [://<host>/xblock/] *)
Lemma deny_xblock_found (pre host rest : string) :
  host <> ""%string ->
  Str.free_of ["/"%char] host = true ->
  Re.re_search deny_xblock (pre ++ "://" ++ host ++ "/xblock/" ++ rest)%string
  = true.
Proof.
  intros Hne Hfree. apply ReFacts.re_search_at.
  set (t := ("/xblock/" ++ rest)%string).
  destruct (ReFacts.plus_iter_run ["/"%char] host
              (S (String.length (host ++ t)%string)) None t)
    as [l Hl]; [exact Hne | exact Hfree | | reflexivity |].
  { rewrite ReFacts.length_app. lia. }
  rewrite <- ReFacts.exec_Plus in Hl.
  destruct (ReFacts.exec_Cat_hd _ (Re.Lit "/xblock/") _ _ _ _ _ _ Hl
              (ReFacts.exec_Lit_app _ _ _)) as [l2 H2].
  destruct (ReFacts.exec_Cat_hd (Re.Lit "://") _ None
              ("://" ++ host ++ t)%string _ _ _ _
              (ReFacts.exec_Lit_app _ _ _) H2) as [l3 H3].
  unfold deny_xblock. fold t. rewrite H3. discriminate.
Qed.

(** C7 as stated fails: with the default checks of the extractor, the rule
    follows a link whose path has [/xblock/] after its first segment and a
    link that asks for the archive type in a parameter that is not the first,
    and it returns for a later page a link that it returned for an earlier
    one. *)
Lemma rules_follow_nested_xblock :
  Str.contains "/xblock/" (Link.path_of nested_xblock_link) = true /\
  Str.contains "_accept=application/x-tgz" (Link.query_of archive_link)
  = true /\
  rules ScrapyDefaults.passes_defaults [plain_link] = [plain_link] /\
  rules ScrapyDefaults.passes_defaults
        [nested_xblock_link; archive_link; plain_link]
  = [nested_xblock_link; archive_link; plain_link].
Proof. repeat split; vm_compute; reflexivity. Qed.

(** the scenario of the specification: an xblock link right after the host
    is not followed *)
Lemma xblock_link_excluded :
  rules ScrapyDefaults.passes_defaults
        ["https://host/xblock/foo/view"; plain_link; plain_link]
  = [plain_link].
Proof. vm_compute. reflexivity. Qed.

(** links that the default checks of the extractor drop, although no [deny]
    expression is found in them *)
Lemma default_checks_drop_links :
  rules ScrapyDefaults.passes_defaults
        ["https://host/handout.pdf"; "https://host/course.ZIP";
         "https://host/logo.png?v=2"; "mailto:staff@example.org";
         "javascript:void(0)"; plain_link; "https://host/page.html"]
  = [plain_link; "https://host/page.html"].
Proof. vm_compute. reflexivity. Qed.

(** C7, amended: whatever the default checks of the extractor are, every
    link the rule follows is a link of the page that passes them and in which
    no [deny] expression is found, and no link is followed twice from one
    page.  So none of the links followed contains [/logout/] (in its path or
    elsewhere), none has [/xblock/] right after its host, and none contains
    [?_accept=application/x-tgz]. *)
Theorem rules_follow_allowed_links (passes_defaults : string -> bool)
    (links : list string) :
  NoDup (rules passes_defaults links) /\
  forall link : string,
    In link (rules passes_defaults links) ->
    In link links /\
    passes_defaults link = true /\
    LinkExtractor.denied deny link = false /\
    (forall pre part post : string,
       link = (pre ++ part ++ post)%string ->
       Str.contains "/logout/" part = false) /\
    (forall pre host rest : string,
       host <> ""%string ->
       Str.free_of ["/"%char] host = true ->
       link <> (pre ++ "://" ++ host ++ "/xblock/" ++ rest)%string) /\
    Str.contains "?_accept=application/x-tgz" link = false.
Proof.
  split; [apply LinkFacts.unique_list_NoDup|].
  intros link Hin.
  apply LinkFacts.extract_links_In in Hin as (Hin & Hdef & Hden).
  split; [exact Hin|]. split; [exact Hdef|]. split; [exact Hden|].
  apply denied_false in Hden as (H1 & H2 & H3).
  unfold deny_logout in H1. unfold deny_archive in H3.
  rewrite ReFacts.re_search_Lit in H1, H3.
  split; [|split; [|exact H3]].
  - intros pre part post -> .
    destruct (Str.contains "/logout/" part) eqn:E; [|reflexivity].
    rewrite (StrFacts.contains_part _ pre part post E) in H1. discriminate.
  - intros pre host rest Hne Hfree ->.
    rewrite (deny_xblock_found pre host rest Hne Hfree) in H2. discriminate.
Qed.

Lemma rules_follow_allowed_links_witness :
  In plain_link
     (rules ScrapyDefaults.passes_defaults
            [plain_link; "https://host/xblock/foo/view"]) /\
  plain_link <> "https://host/xblock/foo/view"%string.
Proof.
  assert (Hin : In plain_link
                   (rules ScrapyDefaults.passes_defaults
                          [plain_link; "https://host/xblock/foo/view"]))
    by (vm_compute; auto).
  split; [exact Hin|].
  destruct (rules_follow_allowed_links ScrapyDefaults.passes_defaults
              [plain_link; "https://host/xblock/foo/view"]) as (_ & H).
  destruct (H plain_link Hin) as (_ & _ & _ & _ & Hx & _).
  apply (Hx "https"%string "host"%string "foo/view"%string).
  - discriminate.
  - reflexivity.
Defined.

End LinkPolicy.

(** ** Facts about generator runs *)

Module GenFacts.

Lemma yield_from_done (g : gen) : Gen.yield_from g Gen.done = g.
Proof.
  destruct g as [ev [e|]]; unfold Gen.yield_from; simpl.
  - reflexivity.
  - now rewrite app_nil_r.
Qed.

Lemma yielded_yield_each {A : Type} (f : A -> output) (l : list A) :
  yielded (Gen.yield_each f l Gen.done) = map f l.
Proof.
  induction l as [|x l IH].
  - reflexivity.
  - cbn [Gen.yield_each]. unfold yielded in *. simpl. now rewrite IH.
Qed.

Lemma logged_yield_each {A : Type} (f : A -> output) (l : list A) :
  logged (Gen.yield_each f l Gen.done) = [].
Proof.
  induction l as [|x l IH].
  - reflexivity.
  - cbn [Gen.yield_each]. unfold logged in *. simpl. exact IH.
Qed.

Lemma raised_yield_each {A : Type} (f : A -> output) (l : list A) :
  raised (Gen.yield_each f l Gen.done) = None.
Proof.
  induction l as [|x l IH]; [reflexivity | exact IH].
Qed.

End GenFacts.

(** ** The crawl callbacks *)

Module Crawl.

Import Spider Examples.

(** the one request of the re-authentication, given the token *)
Lemma reauth_run (self : QuestionFinder) (response : Response)
    (token : option string) :
  get_csrf_token (set_cookie response) = Ok token ->
  handle_unexpected_redirect_to_login_page self response
  = {| events :=
         [Yield (OReq (scrapy_FormRequest
                         (UObj (resume_login_url self response))
                         (credentials self) [("X-CSRFToken"%string, token)]
                         CbAfterLogin EbHandleError))];
       raised := None |}.
Proof.
  intros H. unfold handle_unexpected_redirect_to_login_page. now rewrite H.
Qed.

Lemma reauth_fails (self : QuestionFinder) (response : Response) (e : exn) :
  get_csrf_token (set_cookie response) = Raise e ->
  handle_unexpected_redirect_to_login_page self response = Gen.fail e.
Proof.
  intros H. unfold handle_unexpected_redirect_to_login_page. now rewrite H.
Qed.

Lemma reauth_no_items_no_logs (self : QuestionFinder) (response : Response) :
  items (handle_unexpected_redirect_to_login_page self response) = [] /\
  logged (handle_unexpected_redirect_to_login_page self response) = [].
Proof.
  destruct (get_csrf_token (set_cookie response)) as [token|e] eqn:E.
  - rewrite (reauth_run _ _ _ E). split; reflexivity.
  - rewrite (reauth_fails _ _ _ E). split; reflexivity.
Qed.

Lemma login_path_eqb (response : Response) :
  path (url response) = LOGIN_HTML_PATH ->
  String.eqb (path (url response)) LOGIN_HTML_PATH = true.
Proof. intros ->. reflexivity. Qed.

(** the run of [parse_item] on a page that is not the login page *)
Lemma parse_item_other_page (self : QuestionFinder) (response : Response) :
  path (url response) <> LOGIN_HTML_PATH ->
  exists item,
    parse_item self response
    = {| events := [Yield (OItem item)]; raised := None |} /\
    item_url item = Some (url response).
Proof.
  intros H. unfold parse_item.
  destruct (String.eqb_spec (path (url response)) LOGIN_HTML_PATH) as [E|_];
    [contradiction|].
  eexists. split; reflexivity.
Qed.

(** C1, where the code departs from it: on a response whose path is
    [/login], [parse_item] yields the login request of the re-authentication
    and then, falling through, a page record for the login page itself. *)
Theorem parse_item_login_page_record (self : QuestionFinder)
    (response : Response) (token : option string) :
  path (url response) = LOGIN_HTML_PATH ->
  get_csrf_token (set_cookie response) = Ok token ->
  exists (req : Request) (item : VictorBotScraperItem),
    yielded (parse_item self response) = [OReq req; OItem item] /\
    requests (handle_unexpected_redirect_to_login_page self response) = [req] /\
    item_url item = Some (url response).
Proof.
  intros Hpath Htok. unfold parse_item.
  rewrite (login_path_eqb _ Hpath), (reauth_run _ _ _ Htok).
  do 2 eexists. repeat split.
Qed.

Lemma parse_item_login_page_record_witness :
  exists (req : Request) (item : VictorBotScraperItem),
    yielded (parse_item default_spider login_redirect) = [OReq req; OItem item] /\
    requests (handle_unexpected_redirect_to_login_page default_spider
                login_redirect) = [req] /\
    item_url item = Some (url login_redirect).
Proof.
  apply (parse_item_login_page_record default_spider login_redirect
           (Some "abc123"%string)); reflexivity.
Defined.

(** C2 as stated fails: [/login?next=] has the parameter, yet the login
    request goes to the login API URL without it; and when the token
    extraction raises, no login request is yielded, whatever [next] is. *)
Lemma empty_next_is_dropped :
  has_query_param (url login_redirect_empty_next) "next" = true /\
  map req_url (requests (parse_item default_spider login_redirect_empty_next))
  = [UObj (login_api_url default_spider)] /\
  query (login_api_url default_spider) = [] /\
  has_query_param (url login_redirect_bare_cookie) "next" = true /\
  parse_item default_spider login_redirect_bare_cookie
  = Gen.fail AttributeError.
Proof. repeat split; vm_compute; reflexivity. Qed.

(** C2, amended: when the token extraction returns, the one request that
    [parse_item] yields for a response whose path is [/login] is the login
    form, sent to the login API URL; that URL has the single parameter
    [next], with the value found in the response URL, when that value is not
    empty, and no parameter when [next] is absent or empty. *)
Theorem reauth_threads_next (self : QuestionFinder) (response : Response)
    (token : option string) :
  path (url response) = LOGIN_HTML_PATH ->
  get_csrf_token (set_cookie response) = Ok token ->
  requests (parse_item self response)
  = [scrapy_FormRequest (UObj (resume_login_url self response))
       (credentials self) [("X-CSRFToken"%string, token)]
       CbAfterLogin EbHandleError] /\
  hostname (resume_login_url self response) = domain self /\
  path (resume_login_url self response) = LOGIN_API_PATH /\
  (forall next : string,
     query_dict_get (url response) "next" = Some next ->
     next <> ""%string ->
     query (resume_login_url self response) = [("next"%string, Some next)]) /\
  (query_dict_get (url response) "next" = None \/
   query_dict_get (url response) "next" = Some ""%string ->
   query (resume_login_url self response) = []).
Proof.
  intros Hpath Htok. split; [|split; [|split; [|split]]].
  - unfold parse_item.
    now rewrite (login_path_eqb _ Hpath), (reauth_run _ _ _ Htok).
  - unfold resume_login_url.
    destruct (query_dict_get (url response) "next") as [[|c n]|]; reflexivity.
  - unfold resume_login_url.
    destruct (query_dict_get (url response) "next") as [[|c n]|]; reflexivity.
  - intros next Hnext Hne. unfold resume_login_url. rewrite Hnext.
    destruct next; [congruence | reflexivity].
  - intros [H|H]; unfold resume_login_url; rewrite H; reflexivity.
Qed.

Lemma reauth_threads_next_witness :
  query (resume_login_url default_spider login_redirect)
  = [("next"%string,
      Some "/courses/course-v1:edX+Test101+course/progress"%string)] /\
  query (resume_login_url default_spider login_redirect_empty_next) = [].
Proof.
  split.
  - apply (reauth_threads_next default_spider login_redirect
             (Some "abc123"%string) eq_refl eq_refl).
    + reflexivity.
    + discriminate.
  - apply (reauth_threads_next default_spider login_redirect_empty_next
             (Some "abc123"%string) eq_refl eq_refl).
    right. reflexivity.
Defined.

(** C3 as stated fails: the one request of the re-authentication is the
    POST of the login form to the login API, with [after_login] as callback;
    no GET of the login page is issued.  And when the token extraction
    raises, no request is yielded. *)
Lemma reauth_request_is_the_login_form :
  map (fun r => (req_method r, req_callback r, req_formdata r, req_headers r))
      (requests (handle_unexpected_redirect_to_login_page default_spider
                   login_redirect))
  = [(POST, Some CbAfterLogin,
      [("email", "myoungstrom@edx.org"); ("password", "victor")],
      [("X-CSRFToken", Some "abc123")])]%string /\
  map req_url
      (requests (handle_unexpected_redirect_to_login_page default_spider
                   login_redirect))
  = [UObj {| scheme := "http"; hostname := "jzoldak.sandbox.edx.org";
             path := "/user_api/v1/account/login_session/";
             query := [("next", Some "/courses/course-v1:edX+Test101+course/progress")] |}]%string /\
  handle_unexpected_redirect_to_login_page default_spider
    login_redirect_bare_cookie
  = Gen.fail AttributeError.
Proof. repeat split; vm_compute; reflexivity. Qed.

(** C3, amended: when the token extraction returns, the re-authentication
    yields exactly one request and nothing else: the POST of the login form
    to the login API URL, with the token just extracted from the redirected
    response in [X-CSRFToken] and the credentials as form; it is the request
    of [after_initial_csrf] for the same response, but for its URL, which may
    carry [next], and its callback, [after_login]. *)
Theorem reauth_emits_one_login_form (self : QuestionFinder)
    (response : Response) (token : option string) :
  get_csrf_token (set_cookie response) = Ok token ->
  exists req : Request,
    handle_unexpected_redirect_to_login_page self response
    = {| events := [Yield (OReq req)]; raised := None |} /\
    req_method req = POST /\
    req_headers req = [("X-CSRFToken"%string, token)] /\
    req_formdata req = credentials self /\
    req_callback req = Some CbAfterLogin /\
    req_errback req = Some EbHandleError /\
    (exists u, req_url req = UObj u /\ hostname u = domain self /\
               path u = LOGIN_API_PATH) /\
    after_initial_csrf self response
    = {| events :=
           [Yield (OReq {| req_url := UObj (login_api_url self);
                           req_method := req_method req;
                           req_headers := req_headers req;
                           req_formdata := req_formdata req;
                           req_callback := Some CbAfterInitialLogin;
                           req_errback := req_errback req;
                           req_dont_filter := req_dont_filter req |})];
         raised := None |}.
Proof.
  intros Htok. eexists. split; [apply (reauth_run _ _ _ Htok)|].
  repeat split.
  - exists (resume_login_url self response). repeat split;
      unfold resume_login_url;
      destruct (query_dict_get (url response) "next") as [[|c n]|];
      reflexivity.
  - unfold after_initial_csrf. rewrite Htok. reflexivity.
Qed.

Lemma reauth_emits_one_login_form_witness :
  exists req : Request,
    handle_unexpected_redirect_to_login_page default_spider login_redirect
    = {| events := [Yield (OReq req)]; raised := None |} /\
    req_method req = POST.
Proof.
  destruct (reauth_emits_one_login_form default_spider login_redirect
              (Some "abc123"%string) eq_refl) as (req & H1 & H2 & _).
  exists req. split; assumption.
Defined.

End Crawl.

(** ** Login results, page records and the seed *)

Module Login.

Import Spider Examples.

Lemma parse_item_no_logs (self : QuestionFinder) (response : Response) :
  logged (parse_item self response) = [].
Proof.
  unfold parse_item.
  destruct (String.eqb (path (url response)) LOGIN_HTML_PATH);
    [|reflexivity].
  destruct (get_csrf_token (set_cookie response)) as [token|e] eqn:E.
  - rewrite (Crawl.reauth_run _ _ _ E). reflexivity.
  - rewrite (Crawl.reauth_fails _ _ _ E). reflexivity.
Qed.

(** C4, where the code departs from it: [after_login] is [parse_item]; a
    re-authentication response that carries the failure phrase is handled as
    any page, nothing is logged and, off the login page, a page record is
    yielded for it. *)
Theorem after_login_has_no_failure_check (self : QuestionFinder)
    (response : Response) :
  Str.contains LOGIN_FAILURE_MSG (text response) = true ->
  after_login self response = parse_item self response /\
  logged (after_login self response) = [] /\
  (path (url response) <> LOGIN_HTML_PATH ->
   exists item, yielded (after_login self response) = [OItem item]).
Proof.
  intros _. unfold after_login. rewrite GenFacts.yield_from_done.
  split; [reflexivity|]. split; [apply parse_item_no_logs|].
  intros H. destruct (Crawl.parse_item_other_page self response H)
    as (item & -> & _).
  now exists item.
Qed.

Lemma after_login_has_no_failure_check_witness :
  Str.contains LOGIN_FAILURE_MSG (text rejected_login) = true /\
  logged (after_login default_spider rejected_login) = [] /\
  exists item, yielded (after_login default_spider rejected_login)
               = [OItem item].
Proof.
  assert (H : Str.contains LOGIN_FAILURE_MSG (text rejected_login) = true)
    by reflexivity.
  destruct (after_login_has_no_failure_check default_spider rejected_login H)
    as (_ & Hlog & Hitem).
  split; [exact H|]. split; [exact Hlog|].
  apply Hitem. discriminate.
Defined.

(** on the login page shown again with the failure phrase, [after_login]
    even sends the login form once more *)
Lemma after_login_retries_on_login_page :
  Str.contains LOGIN_FAILURE_MSG (text rejected_login_page) = true /\
  map (fun r => (req_method r, req_callback r))
      (requests (after_login default_spider rejected_login_page))
  = [(POST, Some CbAfterLogin)] /\
  logged (after_login default_spider rejected_login_page) = [].
Proof. repeat split; vm_compute; reflexivity. Qed.

(** C5, where the code departs from it: a page record yielded by
    [parse_item] has the response URL and a title, and neither request
    headers nor an access time. *)
Theorem parse_item_record_fields (self : QuestionFinder) (response : Response)
    (item : VictorBotScraperItem) :
  In item (items (parse_item self response)) ->
  item_url item = Some (url response) /\
  (exists title, item_page_title item = Some title) /\
  item_request_headers item = None /\
  item_accessed_at item = None.
Proof.
  unfold parse_item.
  destruct (String.eqb (path (url response)) LOGIN_HTML_PATH).
  - destruct (get_csrf_token (set_cookie response)) as [token|e] eqn:E.
    + rewrite (Crawl.reauth_run _ _ _ E). cbn.
      intros [<-|[]]. cbn. eauto.
    + rewrite (Crawl.reauth_fails _ _ _ E). cbn. intros [].
  - cbn. intros [<-|[]]. cbn. eauto.
Qed.

Lemma parse_item_record_fields_witness :
  exists item,
    items (parse_item default_spider course_info) = [item] /\
    item_page_title item = Some (Some "Course Info"%string) /\
    item_request_headers item = None /\
    item_accessed_at item = None.
Proof.
  eexists. split; [reflexivity|]. split; [reflexivity|].
  refine (proj2 (proj2 (parse_item_record_fields default_spider course_info
                          _ _))).
  left. reflexivity.
Defined.

(** C6, where the code departs from it: whatever the domain and the course
    key, the start URLs are the one fixed URL of the default course, and the
    requests that follow a successful login are those of the default
    spider. *)
Theorem start_urls_ignore_configuration
    (domain email password : string) (http_user http_pass : option string)
    (course_key : string) (response : Response) :
  start_urls (init domain email password http_user http_pass course_key)
  = [default_seed] /\
  requests (after_initial_login
              (init domain email password http_user http_pass course_key)
              response)
  = requests (after_initial_login default_spider response).
Proof. split; reflexivity. Qed.

(** the seed of a spider for another site and course *)
Lemma other_spider_seed :
  domain other_spider = "courses.example.org"%string /\
  course_key other_spider = "course-v1:Org+Num101+Run"%string /\
  map req_url (requests (after_initial_login other_spider course_info))
  = [UStr default_seed].
Proof. repeat split; vm_compute; reflexivity. Qed.

(** C8: with the failure phrase in the body of the response,
    [after_initial_login] logs one error and yields nothing; without it, it
    yields one request for each start URL, in order. *)
Theorem after_initial_login_result (self : QuestionFinder)
    (response : Response) :
  (Str.contains LOGIN_FAILURE_MSG (text response) = true ->
   after_initial_login self response
   = {| events := [Log ERROR credentials_failed_msg]; raised := None |} /\
   yielded (after_initial_login self response) = [] /\
   logged (after_initial_login self response)
   = [(ERROR, credentials_failed_msg)]) /\
  (Str.contains LOGIN_FAILURE_MSG (text response) = false ->
   yielded (after_initial_login self response)
   = map (fun u => OReq (make_requests_from_url u)) (start_urls self) /\
   requests (after_initial_login self response)
   = map make_requests_from_url (start_urls self) /\
   List.length (requests (after_initial_login self response))
   = List.length (start_urls self) /\
   raised (after_initial_login self response) = None).
Proof.
  unfold after_initial_login. split; intros H; rewrite H.
  - repeat split.
  - assert (Hy : yielded
                   (log INFO "successfully completed initial login" ;;
                    Gen.yield_each (fun u => OReq (make_requests_from_url u))
                      (start_urls self) Gen.done)
                 = map (fun u => OReq (make_requests_from_url u))
                       (start_urls self)).
    { apply (GenFacts.yielded_yield_each
               (fun u => OReq (make_requests_from_url u))). }
    assert (Hr : requests
                   (log INFO "successfully completed initial login" ;;
                    Gen.yield_each (fun u => OReq (make_requests_from_url u))
                      (start_urls self) Gen.done)
                 = map make_requests_from_url (start_urls self)).
    { unfold requests. rewrite Hy. clear Hy H.
      induction (start_urls self) as [|u l IH]; [reflexivity|].
      simpl. now rewrite IH. }
    split; [exact Hy|]. split; [exact Hr|]. split.
    + rewrite Hr. apply length_map.
    + apply (GenFacts.raised_yield_each
               (fun u => OReq (make_requests_from_url u))).
Qed.

Lemma after_initial_login_result_witness :
  yielded (after_initial_login default_spider rejected_login) = [] /\
  requests (after_initial_login default_spider course_info)
  = [make_requests_from_url default_seed].
Proof.
  split.
  - apply (after_initial_login_result default_spider rejected_login).
    reflexivity.
  - apply (after_initial_login_result default_spider course_info).
    reflexivity.
Defined.

End Login.

(** ** What a match tells about the text *)

Module ReSound.

Lemma exec_Cat (r1 r2 : Re.regex) (cap : option string) (s : string) :
  Re.exec (Re.Cat r1 r2) cap s
  = flat_map (fun st => Re.exec r2 (fst st) (snd st)) (Re.exec r1 cap s).
Proof. reflexivity. Qed.

Lemma exec_NotIn (cs : list ascii) (cap : option string) (s : string) :
  Re.exec (Re.NotIn cs) cap s
  = match s with
    | String a s' => if Str.mem a cs then [] else [(cap, s')]
    | EmptyString => []
    end.
Proof. reflexivity. Qed.

Lemma exec_Lit_inv (p : string) (cap : option string) (s : string)
    (st : Re.state) :
  In st (Re.exec (Re.Lit p) cap s) ->
  fst st = cap /\ s = (p ++ snd st)%string.
Proof.
  intros H. destruct (Str.startswith p s) eqn:E.
  - destruct (StrFacts.startswith_inv _ _ E) as [t ->].
    rewrite ReFacts.exec_Lit_app in H. destruct H as [<-|[]].
    split; reflexivity.
  - rewrite ReFacts.exec_Lit_nomatch in H by exact E. destruct H.
Qed.

Lemma exec_Cat_inv (r1 r2 : Re.regex) (cap : option string) (s : string)
    (st : Re.state) :
  In st (Re.exec (Re.Cat r1 r2) cap s) ->
  exists st1, In st1 (Re.exec r1 cap s) /\
              In st (Re.exec r2 (fst st1) (snd st1)).
Proof. rewrite exec_Cat. intros H. now apply in_flat_map in H. Qed.

Lemma exec_Chr_inv (c : ascii) (cap : option string) (s : string)
    (st : Re.state) :
  In st (Re.exec (Re.Chr c) cap s) -> fst st = cap /\ s = String c (snd st).
Proof.
  destruct s as [|a s]; simpl; [intros []|].
  destruct (Ascii.eqb_spec a c) as [->|_]; [|intros []].
  intros [<-|[]]. split; reflexivity.
Qed.

(** every way to match [[^cs]+] takes a non-empty text free of [cs] *)
Lemma plus_iter_sound (cs : list ascii) :
  forall (n : nat) (cap : option string) (s : string) (st : Re.state),
    In st (Re.plus_iter (Re.exec (Re.NotIn cs)) n cap s) ->
    fst st = cap /\
    exists tok : string,
      tok <> ""%string /\ Str.free_of cs tok = true /\
      s = (tok ++ snd st)%string.
Proof.
  induction n as [|n IH]; intros cap s st H; [destruct H|].
  cbn [Re.plus_iter] in H. apply in_flat_map in H as (x & Hx & H).
  rewrite exec_NotIn in Hx. destruct s as [|a s]; [destruct Hx|].
  destruct (Str.mem a cs) eqn:Ea; [destruct Hx|].
  destruct Hx as [<-|[]]. cbn [fst snd] in H.
  apply in_app_or in H as [H|[<-|[]]].
  - destruct (IH _ _ _ H) as (Hc & tok & _ & Hfree & ->).
    split; [exact Hc|]. exists (String a tok). repeat split.
    + discriminate.
    + simpl. now rewrite Ea, Hfree.
  - split; [reflexivity|]. exists (String a ""). repeat split.
    + discriminate.
    + simpl. now rewrite Ea.
Qed.



End ReSound.

(** ** The token extractor, case by case *)

Module TokenFacts.

Import Spider Examples MoreExamples.

(** a match of the token pattern gives the shape of the header *)
Lemma csrf_pattern_inv (h : string) (g : option string) :
  Re.re_match csrf_pattern h = Some g ->
  exists tok rest : string,
    g = Some tok /\
    h = ("csrftoken=" ++ tok ++ ";" ++ rest)%string /\
    tok <> ""%string /\
    Str.free_of [" "%char; ";"%char] tok = true.
Proof.
  unfold Re.re_match.
  destruct (Re.exec csrf_pattern None h) as [|st l] eqn:E; [discriminate|].
  intros [= <-].
  assert (H : In st (Re.exec csrf_pattern None h)) by (rewrite E; now left).
  unfold csrf_pattern in H.
  apply ReSound.exec_Cat_inv in H as (st1 & H1 & H).
  apply ReSound.exec_Lit_inv in H1 as [Hc1 ->].
  apply ReSound.exec_Cat_inv in H as (st2 & H2 & H3).
  rewrite ReFacts.exec_Group in H2.
  apply in_map_iff in H2 as (x & <- & Hx).
  rewrite ReFacts.exec_Plus in Hx.
  apply ReSound.plus_iter_sound in Hx as (_ & tok & Hne & Hfree & Hs).
  cbn [fst snd] in H3.
  apply ReSound.exec_Chr_inv in H3 as [Hc3 Hsemi].
  exists tok, (snd st). repeat split.
  - rewrite Hc3. f_equal. rewrite Hs at 1. apply ReFacts.consumed_app.
  - rewrite Hs, Hsemi. reflexivity.
  - exact Hne.
  - exact Hfree.
Qed.

Lemma decode_headers_cases (hs : list string) :
  (forallb all_ascii hs = true /\ decode_headers hs = Ok hs) \/
  (forallb all_ascii hs = false /\
   decode_headers hs = Raise UnicodeDecodeError).
Proof.
  destruct (forallb all_ascii hs) eqn:E.
  - left. split; [reflexivity|]. now apply TokenExtractor.decode_headers_ascii.
  - right. split; [reflexivity|].
    now apply TokenExtractor.decode_headers_not_ascii.
Qed.

(** the extraction on ASCII headers *)
Lemma get_csrf_token_ascii (hs : list string) :
  forallb all_ascii hs = true ->
  get_csrf_token hs
  = match filter (Str.startswith "csrftoken=") hs with
    | [] => Ok None
    | _ :: _ =>
        match Re.re_match csrf_pattern
                (last (filter (Str.startswith "csrftoken=") hs) ""%string) with
        | None => Raise AttributeError
        | Some group1 => Ok group1
        end
    end.
Proof.
  intros H. unfold get_csrf_token.
  rewrite (TokenExtractor.decode_headers_ascii _ H).
  destruct hs; reflexivity.
Qed.

Lemma get_csrf_token_not_ascii (hs : list string) :
  forallb all_ascii hs = false ->
  get_csrf_token hs = Raise UnicodeDecodeError.
Proof.
  intros H. unfold get_csrf_token.
  now rewrite (TokenExtractor.decode_headers_not_ascii _ H).
Qed.

Lemma filter_nil_iff {A : Type} (f : A -> bool) (l : list A) :
  filter f l = [] <-> forall x, In x l -> f x = false.
Proof.
  split.
  - intros E x Hx. destruct (f x) eqn:Ef; [|reflexivity].
    assert (H : In x (filter f l)) by (apply filter_In; now split).
    rewrite E in H. destruct H.
  - apply TokenExtractor.filter_none.
Qed.

Lemma last_In {A : Type} (l : list A) (d : A) : l <> [] -> In (last l d) l.
Proof.
  induction l as [|x l IH]; [congruence|]. intros _.
  destruct l as [|y l]; [now left|].
  right. apply IH. discriminate.
Qed.

Lemma get_csrf_token_none (hs : list string) :
  forallb all_ascii hs = true ->
  (forall h, In h hs -> Str.startswith "csrftoken=" h = false) ->
  get_csrf_token hs = Ok None.
Proof.
  intros Ha Hnone. rewrite (get_csrf_token_ascii _ Ha).
  now rewrite (TokenExtractor.filter_none _ _ Hnone).
Qed.

(** X1: A token that is returned is the value of the last [csrftoken=] entry,
    is followed there by a semicolon, is not empty and has neither a space
    nor a semicolon in it; and all headers are ASCII. *)
Theorem returned_token_shape (hs : list string) (tok : string) :
  get_csrf_token hs = Ok (Some tok) ->
  forallb all_ascii hs = true /\
  tok <> ""%string /\
  Str.free_of [" "%char; ";"%char] tok = true /\
  exists rest : string,
    last (filter (Str.startswith "csrftoken=") hs) ""%string
    = ("csrftoken=" ++ tok ++ ";" ++ rest)%string.
Proof.
  intros H. destruct (decode_headers_cases hs) as [[Ha _]|[Ha _]].
  - split; [exact Ha|]. rewrite (get_csrf_token_ascii _ Ha) in H.
    destruct (filter (Str.startswith "csrftoken=") hs) as [|c cs];
      [discriminate|].
    destruct (Re.re_match csrf_pattern (last (c :: cs) ""%string)) as [g|]
      eqn:E; [|discriminate].
    injection H as ->.
    destruct (csrf_pattern_inv _ _ E) as (tok' & rest & [= <-] & Hh & Hne & Hf).
    repeat split; [exact Hne | exact Hf |]. now exists rest.
  - rewrite (get_csrf_token_not_ascii _ Ha) in H. discriminate.
Qed.

Lemma returned_token_shape_witness :
  Str.free_of [" "%char; ";"%char] "abc123" = true.
Proof.
  apply (returned_token_shape ["sessionid=1"; "csrftoken=abc123; Path=/"]
           "abc123"%string).
  reflexivity.
Defined.

(** X2: The extraction returns [None] exactly when all headers are ASCII and
    none of them begins with [csrftoken=]; in particular a token entry never
    gives [None]. *)
Theorem no_token_iff (hs : list string) :
  get_csrf_token hs = Ok None <->
  forallb all_ascii hs = true /\
  forall h, In h hs -> Str.startswith "csrftoken=" h = false.
Proof.
  rewrite <- filter_nil_iff. split.
  - intros H. destruct (decode_headers_cases hs) as [[Ha _]|[Ha _]].
    + split; [exact Ha|]. rewrite (get_csrf_token_ascii _ Ha) in H.
      destruct (filter (Str.startswith "csrftoken=") hs) as [|c cs];
        [reflexivity|].
      destruct (Re.re_match csrf_pattern (last (c :: cs) ""%string)) as [g|]
        eqn:E; [|discriminate].
      destruct (csrf_pattern_inv _ _ E) as (tok & _ & -> & _). discriminate.
    + rewrite (get_csrf_token_not_ascii _ Ha) in H. discriminate.
  - intros [Ha Hf]. apply get_csrf_token_none; [exact Ha|].
    now apply filter_nil_iff.
Qed.

Lemma no_token_iff_witness :
  get_csrf_token ["sessionid=1; Path=/"; "lang=en"] = Ok None.
Proof.
  apply (no_token_iff ["sessionid=1; Path=/"; "lang=en"]). split.
  - reflexivity.
  - intros h [<-|[<-|[]]]; reflexivity.
Defined.

(** X3: The extraction raises [UnicodeDecodeError] exactly when some header has
    a byte that is not ASCII, with or without a token entry. *)
Theorem unicode_error_iff (hs : list string) :
  get_csrf_token hs = Raise UnicodeDecodeError <->
  forallb all_ascii hs = false.
Proof.
  split.
  - intros H. destruct (forallb all_ascii hs) eqn:Ha; [|reflexivity].
    rewrite (get_csrf_token_ascii _ Ha) in H.
    destruct (filter (Str.startswith "csrftoken=") hs) as [|c cs];
      [discriminate|].
    destruct (Re.re_match csrf_pattern (last (c :: cs) ""%string));
      discriminate.
  - apply get_csrf_token_not_ascii.
Qed.

Lemma unicode_error_iff_witness :
  get_csrf_token ["csrftoken=abc123; Path=/"; latin1_cookie]
  = Raise UnicodeDecodeError.
Proof.
  apply (unicode_error_iff ["csrftoken=abc123; Path=/"; latin1_cookie]).
  reflexivity.
Defined.

(** X4: The extraction raises [AttributeError] exactly when all headers are
    ASCII, some begin with [csrftoken=], and the last of those is not of the
    form [csrftoken=<tok>;...] with a non-empty [tok] free of spaces and
    semicolons. *)
Theorem attribute_error_iff (hs : list string) :
  get_csrf_token hs = Raise AttributeError <->
  forallb all_ascii hs = true /\
  filter (Str.startswith "csrftoken=") hs <> [] /\
  ~ (exists tok rest : string,
       last (filter (Str.startswith "csrftoken=") hs) ""%string
       = ("csrftoken=" ++ tok ++ ";" ++ rest)%string /\
       tok <> ""%string /\
       Str.free_of [" "%char; ";"%char] tok = true).
Proof.
  split.
  - intros H. destruct (decode_headers_cases hs) as [[Ha _]|[Ha _]].
    + split; [exact Ha|]. rewrite (get_csrf_token_ascii _ Ha) in H.
      destruct (filter (Str.startswith "csrftoken=") hs) as [|c cs];
        [discriminate|].
      split; [discriminate|].
      intros (tok & rest & Hl & Hne & Hf).
      rewrite Hl, (TokenExtractor.csrf_pattern_match _ _ Hne Hf) in H.
      discriminate.
    + rewrite (get_csrf_token_not_ascii _ Ha) in H. discriminate.
  - intros (Ha & Hne & Hshape). rewrite (get_csrf_token_ascii _ Ha).
    destruct (filter (Str.startswith "csrftoken=") hs) as [|c cs];
      [congruence|].
    destruct (Re.re_match csrf_pattern (last (c :: cs) ""%string)) as [g|]
      eqn:E; [|reflexivity].
    exfalso. apply Hshape.
    destruct (csrf_pattern_inv _ _ E) as (tok & rest & _ & Hh & Hn & Hf).
    now exists tok, rest.
Qed.

Lemma attribute_error_iff_witness :
  ~ (exists tok rest : string,
       last (filter (Str.startswith "csrftoken=") ["csrftoken=; Path=/"])
            ""%string
       = ("csrftoken=" ++ tok ++ ";" ++ rest)%string /\
       tok <> ""%string /\
       Str.free_of [" "%char; ";"%char] tok = true).
Proof.
  apply (attribute_error_iff ["csrftoken=; Path=/"]). reflexivity.
Defined.

(** X5: On ASCII headers with a token entry, the extraction depends on the last
    token entry only: the other headers and the earlier token entries can be
    dropped. *)
Theorem only_last_entry_counts (hs : list string) :
  forallb all_ascii hs = true ->
  filter (Str.startswith "csrftoken=") hs <> [] ->
  get_csrf_token hs
  = get_csrf_token
      [last (filter (Str.startswith "csrftoken=") hs) ""%string].
Proof.
  intros Ha Hne.
  pose proof (last_In _ ""%string Hne) as Hin.
  apply filter_In in Hin as [Hin Hs].
  assert (Hh : all_ascii
                 (last (filter (Str.startswith "csrftoken=") hs) ""%string)
               = true).
  { rewrite forallb_forall in Ha. now apply Ha. }
  rewrite (get_csrf_token_ascii _ Ha).
  rewrite (get_csrf_token_ascii
             [last (filter (Str.startswith "csrftoken=") hs) ""%string]).
  - cbn [filter]. rewrite Hs. cbn [last].
    destruct (filter (Str.startswith "csrftoken=") hs); [congruence|].
    reflexivity.
  - cbn [forallb]. now rewrite Hh.
Qed.

Lemma only_last_entry_counts_witness :
  get_csrf_token ["csrftoken=first; Path=/"; "sessionid=1";
                  "csrftoken=second"]
  = get_csrf_token ["csrftoken=second"].
Proof.
  apply (only_last_entry_counts
           ["csrftoken=first; Path=/"; "sessionid=1"; "csrftoken=second"]).
  - reflexivity.
  - discriminate.
Defined.

End TokenFacts.

(** ** The crawl rule, exactly *)

Module RuleFacts.

Import Spider Examples MoreExamples.





End RuleFacts.

(** ** Repetition in the crawl rule *)

Module RuleOrder.

Import Spider Examples MoreExamples LinkExtractor.



End RuleOrder.

(** ** Facts about [strip] *)

Module TextFacts.

Lemma lstrip_first (s : string) :
  Text.is_space_opt (Text.first_char (Str.lstrip s)) = false.
Proof.
  induction s as [|c s IH]; [reflexivity|]. cbn [Str.lstrip].
  destruct (Str.is_space c) eqn:E; [exact IH|]. exact E.
Qed.

Lemma rstrip_first (s : string) :
  Text.is_space_opt (Text.first_char s) = false ->
  Text.is_space_opt (Text.first_char (Str.rstrip s)) = false.
Proof.
  destruct s as [|c s]; [reflexivity|]. cbn [Str.rstrip Text.first_char].
  intros H. destruct (Str.rstrip s); [|exact H].
  cbn in H. now rewrite H.
Qed.

Lemma last_char_cons (c : ascii) (s : string) :
  s <> ""%string -> Text.last_char (String c s) = Text.last_char s.
Proof.
  intros H. cbn [Text.last_char].
  destruct s as [|d s]; [congruence|].
  cbn [Text.last_char]. destruct (Text.last_char s); reflexivity.
Qed.

Lemma rstrip_last (s : string) :
  Text.is_space_opt (Text.last_char (Str.rstrip s)) = false.
Proof.
  induction s as [|c s IH]; [reflexivity|]. cbn [Str.rstrip].
  destruct (Str.rstrip s) as [|d t] eqn:E.
  - destruct (Str.is_space c) eqn:Ec; [reflexivity|]. cbn. exact Ec.
  - rewrite last_char_cons by discriminate. exact IH.
Qed.

Lemma strip_trimmed (s : string) : Text.trimmed (Str.strip s) = true.
Proof.
  unfold Text.trimmed, Str.strip.
  now rewrite (rstrip_first _ (lstrip_first s)), rstrip_last.
Qed.

Lemma lstrip_empty_iff (s : string) :
  Str.lstrip s = ""%string <-> Text.all_space s = true.
Proof.
  induction s as [|c s IH]; [tauto|]. cbn [Str.lstrip Text.all_space].
  destruct (Str.is_space c); [exact IH|]. split; discriminate.
Qed.

Lemma rstrip_keeps_text (s : string) :
  s <> ""%string ->
  Text.is_space_opt (Text.first_char s) = false ->
  Str.rstrip s <> ""%string.
Proof.
  destruct s as [|c s]; [congruence|]. intros _ H. cbn [Str.rstrip].
  destruct (Str.rstrip s); [|discriminate].
  cbn in H. rewrite H. discriminate.
Qed.

Lemma strip_empty_iff (s : string) :
  Str.strip s = ""%string <-> Text.all_space s = true.
Proof.
  rewrite <- lstrip_empty_iff. unfold Str.strip. split.
  - intros H. destruct (Str.lstrip s) as [|c t] eqn:E; [reflexivity|].
    exfalso. apply (rstrip_keeps_text (String c t)); [discriminate| |exact H].
    rewrite <- E. apply lstrip_first.
  - intros ->. reflexivity.
Qed.

End TextFacts.

(** ** The callbacks, case by case *)

Module CallbackFacts.

Import Spider Examples MoreExamples Errback.

(** the three runs of [parse_item] *)
Lemma parse_item_cases (self : QuestionFinder) (response : Response) :
  (path (url response) <> LOGIN_HTML_PATH /\
   exists item,
     parse_item self response
     = {| events := [Yield (OItem item)]; raised := None |}) \/
  (path (url response) = LOGIN_HTML_PATH /\
   exists token req item,
     get_csrf_token (set_cookie response) = Ok token /\
     parse_item self response
     = {| events := [Yield (OReq req); Yield (OItem item)];
          raised := None |}) \/
  (path (url response) = LOGIN_HTML_PATH /\
   exists e,
     get_csrf_token (set_cookie response) = Raise e /\
     parse_item self response = Gen.fail e).
Proof.
  destruct (String.eqb_spec (path (url response)) LOGIN_HTML_PATH) as [E|E].
  - right. destruct (get_csrf_token (set_cookie response)) as [token|e] eqn:T.
    + left. split; [exact E|]. exists token. unfold parse_item.
      rewrite (Crawl.login_path_eqb _ E), (Crawl.reauth_run _ _ _ T).
      do 2 eexists. split; reflexivity.
    + right. split; [exact E|]. exists e. split; [reflexivity|].
      unfold parse_item.
      rewrite (Crawl.login_path_eqb _ E), (Crawl.reauth_fails _ _ _ T).
      reflexivity.
  - left. split; [exact E|].
    destruct (Crawl.parse_item_other_page self response E) as (item & H & _).
    now exists item.
Qed.

(** X9: [start_requests] yields a request exactly when the e-mail address and
    the password are both non-empty: then the one GET of [/login] on the
    configured domain, over http, with [after_initial_csrf] as callback;
    otherwise it only logs one INFO record. *)
Theorem start_requests_needs_credentials (self : QuestionFinder) :
  (requests (start_requests self) = [] <->
   login_email self = ""%string \/ login_password self = ""%string) /\
  (login_email self <> ""%string -> login_password self <> ""%string ->
   start_requests self
   = {| events :=
          [Yield (OReq (scrapy_Request
                          (UObj {| scheme := "http";
                                   hostname := domain self;
                                   path := "/login";
                                   query := [] |})
                          CbAfterInitialCsrf EbHandleError))];
        raised := None |}) /\
  (login_email self = ""%string \/ login_password self = ""%string ->
   start_requests self
   = {| events := [Log INFO "Please enter valid email/password combination"];
        raised := None |}).
Proof.
  unfold start_requests.
  destruct (login_email self) as [|a e], (login_password self) as [|b p];
    cbn; repeat split; intros; try tauto; try discriminate;
    try (left; reflexivity); try (right; reflexivity);
    try (destruct H; discriminate).
Qed.

Lemma start_requests_needs_credentials_witness :
  requests (start_requests no_password_spider) = [] /\
  List.length (events (start_requests default_spider)) = 1.
Proof.
  split.
  - apply (start_requests_needs_credentials no_password_spider).
    right. reflexivity.
  - destruct (start_requests_needs_credentials default_spider)
      as (_ & H & _).
    rewrite H; [reflexivity | discriminate | discriminate].
Defined.

(** X10: A login page that sets no token cookie still gets the login form
    posted: [after_initial_csrf] yields the one POST to the login API URL,
    without query, with the credentials and with [X-CSRFToken] set to
    [None]. *)
Theorem initial_login_without_token (self : QuestionFinder)
    (response : Response) :
  forallb all_ascii (set_cookie response) = true ->
  (forall h, In h (set_cookie response) ->
             Str.startswith "csrftoken=" h = false) ->
  after_initial_csrf self response
  = {| events :=
         [Yield (OReq {| req_url :=
                           UObj {| scheme := "http";
                                   hostname := domain self;
                                   path := LOGIN_API_PATH;
                                   query := [] |};
                         req_method := POST;
                         req_headers := [("X-CSRFToken"%string, None)];
                         req_formdata :=
                           [("email"%string, login_email self);
                            ("password"%string, login_password self)];
                         req_callback := Some CbAfterInitialLogin;
                         req_errback := Some EbHandleError;
                         req_dont_filter := false |})];
       raised := None |}.
Proof.
  intros Ha Hnone. unfold after_initial_csrf.
  assert (H : get_csrf_token (set_cookie response) = Ok None)
    by now apply TokenFacts.get_csrf_token_none.
  rewrite H. reflexivity.
Qed.

Lemma initial_login_without_token_witness :
  map req_headers
      (requests (after_initial_csrf default_spider login_page_without_token))
  = [[("X-CSRFToken"%string, None)]].
Proof.
  rewrite (initial_login_without_token default_spider
             login_page_without_token).
  - reflexivity.
  - reflexivity.
  - intros h [<-|[]]. reflexivity.
Defined.

(** X11: Both callbacks that post the login form yield it exactly when the token
    extraction returns; when it raises, they yield and log nothing and end
    with the same exception. *)
Theorem login_form_iff_token (self : QuestionFinder) (response : Response) :
  (requests (after_initial_csrf self response) = [] <->
   exists e, get_csrf_token (set_cookie response) = Raise e) /\
  (requests (handle_unexpected_redirect_to_login_page self response) = [] <->
   exists e, get_csrf_token (set_cookie response) = Raise e) /\
  (forall e,
     get_csrf_token (set_cookie response) = Raise e ->
     after_initial_csrf self response = Gen.fail e /\
     handle_unexpected_redirect_to_login_page self response = Gen.fail e).
Proof.
  unfold after_initial_csrf, handle_unexpected_redirect_to_login_page.
  destruct (get_csrf_token (set_cookie response)) as [token|e]; cbn.
  - split; [|split].
    + split; [discriminate | intros [e H]; discriminate].
    + split; [discriminate | intros [e H]; discriminate].
    + discriminate.
  - split; [|split].
    + split; [intros _; now exists e | reflexivity].
    + split; [intros _; now exists e | reflexivity].
    + intros e' [= <-]. split; reflexivity.
Qed.

Lemma login_form_iff_token_witness :
  requests (after_initial_csrf default_spider login_redirect_bare_cookie)
  = [].
Proof.
  apply (login_form_iff_token default_spider login_redirect_bare_cookie).
  exists AttributeError. reflexivity.
Defined.





(** X14: [parse_item] yields at most one request and at most one record, and a
    request only for a response whose path is [/login]. *)
Theorem parse_item_output_bounds (self : QuestionFinder)
    (response : Response) :
  List.length (requests (parse_item self response)) <= 1 /\
  List.length (items (parse_item self response)) <= 1 /\
  (requests (parse_item self response) <> [] ->
   path (url response) = LOGIN_HTML_PATH).
Proof.
  destruct (parse_item_cases self response)
    as [(E & item & ->)|[(E & tok & req & item & T & ->)|(E & e' & T & ->)]];
    cbn; repeat split; auto; congruence.
Qed.

Lemma parse_item_output_bounds_witness :
  path (url login_redirect) = LOGIN_HTML_PATH.
Proof.
  apply (parse_item_output_bounds default_spider login_redirect).
  vm_compute. discriminate.
Defined.

End CallbackFacts.

(** ** Titles, error reports and the shape of the requests *)

Module RecordFacts.

Import Spider Examples MoreExamples Errback.

Lemma items_of_parse_item (self : QuestionFinder) (response : Response)
    (item : VictorBotScraperItem) :
  In item (items (parse_item self response)) ->
  item
  = {| item_url := Some (url response);
       item_request_headers := None;
       item_accessed_at := None;
       item_page_title :=
         Some (if truthy_opt (hd_error (title_texts response))
               then option_map Str.strip (hd_error (title_texts response))
               else hd_error (title_texts response)) |}.
Proof.
  unfold parse_item.
  destruct (String.eqb (path (url response)) LOGIN_HTML_PATH).
  - destruct (get_csrf_token (set_cookie response)) as [token|e] eqn:E.
    + rewrite (Crawl.reauth_run _ _ _ E). cbn. intros [<-|[]]. reflexivity.
    + rewrite (Crawl.reauth_fails _ _ _ E). cbn. intros [].
  - cbn. intros [<-|[]]. reflexivity.
Qed.

Lemma title_of_record (self : QuestionFinder) (response : Response)
    (item : VictorBotScraperItem) :
  In item (items (parse_item self response)) ->
  item_page_title item
  = Some (option_map Str.strip (hd_error (title_texts response))).
Proof.
  intros H. rewrite (items_of_parse_item _ _ _ H). cbn [item_page_title].
  destruct (hd_error (title_texts response)) as [[|c t]|]; reflexivity.
Qed.

(** X15: The title of a record is the first title text of the page, stripped,
    or [None] when the page has no title text; a title that is recorded
    neither begins nor ends with white space. *)
Theorem record_title_is_stripped (self : QuestionFinder)
    (response : Response) (item : VictorBotScraperItem) :
  In item (items (parse_item self response)) ->
  item_page_title item
  = Some (option_map Str.strip (hd_error (title_texts response))) /\
  forall t : string,
    item_page_title item = Some (Some t) -> Text.trimmed t = true.
Proof.
  intros H. rewrite (title_of_record _ _ _ H). split; [reflexivity|].
  intros t [= Ht].
  destruct (hd_error (title_texts response)) as [t0|]; [|discriminate].
  injection Ht as <-. apply TextFacts.strip_trimmed.
Qed.

Lemma record_title_is_stripped_witness :
  exists item,
    In item (items (parse_item default_spider course_info)) /\
    item_page_title item = Some (Some "Course Info"%string).
Proof.
  assert (H : In {| item_url := Some (url course_info);
                    item_request_headers := None;
                    item_accessed_at := None;
                    item_page_title := Some (Some "Course Info"%string) |}
                 (items (parse_item default_spider course_info)))
    by (left; reflexivity).
  eexists. split; [exact H|].
  apply (record_title_is_stripped default_spider course_info _ H).
Defined.

(** X16: The recorded title is the empty string exactly when the first title
    text of the page is empty or all white space; such a page is recorded
    with an empty title, not without title. *)
Theorem blank_title_is_empty (self : QuestionFinder) (response : Response)
    (item : VictorBotScraperItem) :
  In item (items (parse_item self response)) ->
  (item_page_title item = Some (Some ""%string) <->
   exists t : string,
     hd_error (title_texts response) = Some t /\ Text.all_space t = true) /\
  (item_page_title item = Some None <-> title_texts response = []).
Proof.
  intros H.
  rewrite (title_of_record self response item H).
  destruct (title_texts response) as [|t ts]; cbn [hd_error option_map].
  - split; split; try discriminate; try reflexivity.
    intros (t & Ht & _). discriminate.
  - split; split; try discriminate.
    + intros [= E]. exists t. split; [reflexivity|].
      now apply TextFacts.strip_empty_iff.
    + intros (t' & [= <-] & Hs).
      apply TextFacts.strip_empty_iff in Hs. now rewrite Hs.
Qed.

Lemma blank_title_is_empty_witness :
  exists item,
    In item (items (parse_item default_spider blank_title_page)) /\
    item_page_title item = Some (Some ""%string).
Proof.
  assert (H : In {| item_url := Some (url blank_title_page);
                    item_request_headers := None;
                    item_accessed_at := None;
                    item_page_title := Some (Some ""%string) |}
                 (items (parse_item default_spider blank_title_page)))
    by (left; reflexivity).
  eexists. split; [exact H|].
  apply (blank_title_is_empty default_spider blank_title_page _ H).
  exists "   "%string. split; reflexivity.
Defined.

(** X17: After the record of the failure itself, [handle_error] logs the hint
    about the credentials exactly for an [HttpError] whose status is 401 or
    403. *)
Theorem credentials_hint_iff (self : QuestionFinder) (failure : Failure) :
  In (ERROR, credentials_failed_msg) (tl (handle_error self failure)) <->
  exists (response_url : string) (status : nat),
    value failure = HttpError response_url status /\
    (status = 401 \/ status = 403).
Proof.
  unfold handle_error. cbn [tl].
  destruct (value failure) as [u st|u|].
  - cbn [app]. split.
    + intros [H|[H|H]]; try discriminate H.
      destruct (Nat.eqb_spec st 401) as [E1|_].
      * exists u, st. split; [reflexivity | now left].
      * destruct (Nat.eqb_spec st 403) as [E3|_].
        -- exists u, st. split; [reflexivity | now right].
        -- destruct H.
    + intros (u' & st' & [= <- <-] & [E | E]); rewrite E;
        right; right; now left.
  - split.
    + intros [H|[]]. discriminate H.
    + intros (u' & st' & H & _). discriminate.
  - split.
    + intros [].
    + intros (u' & st' & H & _). discriminate.
Qed.

Lemma credentials_hint_iff_witness :
  In (ERROR, credentials_failed_msg) (tl (handle_error default_spider forbidden)) /\
  ~ In (ERROR, credentials_failed_msg)
       (tl (handle_error default_spider not_found)).
Proof.
  split.
  - apply (credentials_hint_iff default_spider forbidden).
    exists "http://jzoldak.sandbox.edx.org/user_api/v1/account/login_session/"%string,
           403.
    split; [reflexivity | now right].
  - intros H. apply (credentials_hint_iff default_spider not_found) in H
      as (u & st & [= _ <-] & [E|E]); discriminate.
Defined.

(** X18: [handle_error] logs every failure: at least the record of the failure,
    at most four records, all at the ERROR level, the first one being the
    [repr] of the failure. *)
Theorem handle_error_always_logs (self : QuestionFinder) (failure : Failure) :
  hd_error (handle_error self failure) = Some (ERROR, failure_repr failure) /\
  1 <= List.length (handle_error self failure) <= 4 /\
  forall record, In record (handle_error self failure) -> fst record = ERROR.
Proof.
  unfold handle_error. split; [reflexivity|].
  destruct (value failure) as [u st|u|]; cbn [app List.length].
  - destruct (Nat.eqb st 401 || Nat.eqb st 403); cbn; split; try lia;
      intros r H; repeat (destruct H as [<-|H]; [reflexivity|]); destruct H.
  - cbn. split; [lia|].
    intros r H; repeat (destruct H as [<-|H]; [reflexivity|]); destruct H.
  - cbn. split; [lia|].
    intros r H; repeat (destruct H as [<-|H]; [reflexivity|]); destruct H.
Qed.

Lemma handle_error_always_logs_witness :
  In (ERROR, "HttpError Code: 403"%string)
     (handle_error default_spider forbidden) /\
  fst (ERROR, "HttpError Code: 403"%string) = ERROR.
Proof.
  assert (H : In (ERROR, "HttpError Code: 403"%string)
                 (handle_error default_spider forbidden))
    by (right; right; left; reflexivity).
  split; [exact H|].
  apply (handle_error_always_logs default_spider forbidden). exact H.
Defined.

(** X19: Every request of the login handshake and of the re-authentication has
    [handle_error] as error callback, a callback of the spider, and is
    subject to the duplicate filter; the seed requests of
    [after_initial_login] have neither callback nor error callback and
    bypass the duplicate filter. *)
Theorem requests_error_callbacks (self : QuestionFinder) (response : Response)
    (r : Request) :
  (In r (requests (start_requests self)) \/
   In r (requests (after_initial_csrf self response)) \/
   In r (requests (handle_unexpected_redirect_to_login_page self response)) \/
   In r (requests (parse_item self response)) \/
   In r (requests (after_login self response)) ->
   req_errback r = Some EbHandleError /\
   req_callback r <> None /\
   req_dont_filter r = false) /\
  (In r (requests (after_initial_login self response)) ->
   req_errback r = None /\
   req_callback r = None /\
   req_dont_filter r = true /\
   req_method r = GET /\
   exists u, In u (start_urls self) /\ req_url r = UStr u).
Proof.
  assert (Hre : In r (requests
                        (handle_unexpected_redirect_to_login_page self
                           response)) ->
                req_errback r = Some EbHandleError /\
                req_callback r <> None /\ req_dont_filter r = false).
  { unfold handle_unexpected_redirect_to_login_page.
    destruct (get_csrf_token (set_cookie response)); cbn.
    - intros [<-|[]]. cbn. repeat split. discriminate.
    - intros []. }
  assert (Hpi : In r (requests (parse_item self response)) ->
                req_errback r = Some EbHandleError /\
                req_callback r <> None /\ req_dont_filter r = false).
  { unfold parse_item.
    destruct (String.eqb (path (url response)) LOGIN_HTML_PATH).
    - destruct (get_csrf_token (set_cookie response)) as [token|e] eqn:E.
      + rewrite (Crawl.reauth_run _ _ _ E). cbn.
        intros [<-|[]]. cbn. repeat split. discriminate.
      + rewrite (Crawl.reauth_fails _ _ _ E). cbn. intros [].
    - cbn. intros []. }
  split.
  - intros [H|[H|[H|[H|H]]]].
    + unfold start_requests in H.
      destruct (Str.truthy (login_email self)
                && Str.truthy (login_password self)); cbn in H.
      * destruct H as [<-|[]]. cbn. repeat split. discriminate.
      * destruct H.
    + unfold after_initial_csrf in H.
      destruct (get_csrf_token (set_cookie response)); cbn in H.
      * destruct H as [<-|[]]. cbn. repeat split. discriminate.
      * destruct H.
    + exact (Hre H).
    + exact (Hpi H).
    + unfold after_login in H. rewrite GenFacts.yield_from_done in H.
      exact (Hpi H).
  - intros H. unfold after_initial_login in H.
    destruct (Str.contains LOGIN_FAILURE_MSG (text response)).
    + destruct H.
    + unfold requests in H.
      change (yielded
                (log INFO "successfully completed initial login" ;;
                 Gen.yield_each (fun u => OReq (make_requests_from_url u))
                   (start_urls self) Gen.done))
        with (yielded
                (Gen.yield_each (fun u => OReq (make_requests_from_url u))
                   (start_urls self) Gen.done)) in H.
      rewrite GenFacts.yielded_yield_each in H.
      apply in_flat_map in H as (o & Ho & H).
      apply in_map_iff in Ho as (u & <- & Hu).
      destruct H as [<-|[]]. repeat split. now exists u.
Qed.

Lemma requests_error_callbacks_witness :
  In (make_requests_from_url default_seed)
     (requests (after_initial_login default_spider course_info)) /\
  req_errback (make_requests_from_url default_seed) = None.
Proof.
  assert (H : In (make_requests_from_url default_seed)
                 (requests (after_initial_login default_spider course_info)))
    by (left; reflexivity).
  split; [exact H|].
  apply (requests_error_callbacks default_spider course_info
           (make_requests_from_url default_seed)).
  exact H.
Defined.

(** X20: Records come from [parse_item] only: the callbacks of the login
    handshake and the re-authentication never yield one; and the callbacks
    that post the login form or visit a page never log. *)
Theorem only_parse_item_yields_records (self : QuestionFinder)
    (response : Response) :
  items (start_requests self) = [] /\
  items (after_initial_csrf self response) = [] /\
  items (after_initial_login self response) = [] /\
  items (handle_unexpected_redirect_to_login_page self response) = [] /\
  logged (after_initial_csrf self response) = [] /\
  logged (handle_unexpected_redirect_to_login_page self response) = [] /\
  logged (parse_item self response) = [] /\
  logged (after_login self response) = [].
Proof.
  split; [|split; [|split; [|split; [|split; [|split; [|split]]]]]].
  - unfold start_requests.
    destruct (Str.truthy (login_email self)
              && Str.truthy (login_password self)); reflexivity.
  - unfold after_initial_csrf.
    destruct (get_csrf_token (set_cookie response)); reflexivity.
  - unfold after_initial_login.
    destruct (Str.contains LOGIN_FAILURE_MSG (text response));
      [reflexivity|].
    unfold items.
    change (yielded
              (log INFO "successfully completed initial login" ;;
               Gen.yield_each (fun u => OReq (make_requests_from_url u))
                 (start_urls self) Gen.done))
      with (yielded
              (Gen.yield_each (fun u => OReq (make_requests_from_url u))
                 (start_urls self) Gen.done)).
    rewrite GenFacts.yielded_yield_each.
    induction (start_urls self) as [|u l IH]; [reflexivity | exact IH].
  - apply Crawl.reauth_no_items_no_logs.
  - unfold after_initial_csrf.
    destruct (get_csrf_token (set_cookie response)); reflexivity.
  - apply Crawl.reauth_no_items_no_logs.
  - apply Login.parse_item_no_logs.
  - unfold after_login. rewrite GenFacts.yield_from_done.
    apply Login.parse_item_no_logs.
Qed.

End RecordFacts.
